(** * Chart ingestion and derived statistics of qr-website

    A shallow embedding of [data_processor.py] ([ChartDataProcessor]), of
    the song statistics and the chart, song and session routes of [app.py],
    and of the key and text normalization of [comment_manager.py].

    Scope of the character model: Python strings are modelled as Rocq
    [string]s whose characters are the code points U+0000..U+00FF (Latin-1),
    and every Unicode property the code consults ([str.isspace], [\s], [\w],
    [\d], [str.isdigit], general category "S*", [str.lower]) is tabulated for
    exactly that range. *)

From Stdlib Require Import Bool ZArith List String Ascii Lia Permutation Sorted.
From Stdlib Require QArith_base.
Import ListNotations.
Open Scope string_scope.

(* ------------------------------------------------------------------ *)
(** ** Characters *)

Module Chars.

Definition code (c : ascii) : nat := nat_of_ascii c.

Definition in_range (lo hi n : nat) : bool := Nat.leb lo n && Nat.leb n hi.

(** [str.isspace] and the [\s] class of [re] on str patterns. *)
Definition is_space (c : ascii) : bool :=
  let n := code c in
  in_range 9 13 n || in_range 28 32 n || Nat.eqb n 133 || Nat.eqb n 160.

(** Decimal digits (general category Nd): [\d], and what [int] / [float]
    accept as digits. *)
Definition is_decimal (c : ascii) : bool := in_range 48 57 (code c).

(** [str.isdigit]: Nd plus the superscripts two, three and one. *)
Definition is_digit_char (c : ascii) : bool :=
  is_decimal c || existsb (Nat.eqb (code c)) [178; 179; 185].

(** [\w] on str patterns: [str.isalnum] characters and the underscore. *)
Definition is_word (c : ascii) : bool :=
  let n := code c in
  in_range 48 57 n || in_range 65 90 n || in_range 97 122 n || Nat.eqb n 95
  || existsb (Nat.eqb n) [170; 178; 179; 181; 185; 186; 188; 189; 190]
  || in_range 192 214 n || in_range 216 246 n || in_range 248 255 n.

(** General category S (Sm, Sc, Sk, So). *)
Definition is_symbol (c : ascii) : bool :=
  existsb (Nat.eqb (code c))
    [36; 43; 60; 61; 62; 94; 96; 124; 126;
     162; 163; 164; 165; 166; 168; 169; 172; 174; 175; 176; 177; 180; 184;
     215; 247].

(** The punctuation kept by the class of the last [re.sub] of
    [normalize_song_title]: hyphen, period, comma, colon, semicolon,
    ampersand, both parentheses, apostrophe and double quote. *)
Definition is_kept_punct (c : ascii) : bool :=
  existsb (Nat.eqb (code c)) [45; 46; 44; 58; 59; 38; 40; 41; 39; 34].

(** [str.lower] on one character. *)
Definition lower (c : ascii) : ascii :=
  let n := code c in
  if in_range 65 90 n || in_range 192 214 n || in_range 216 222 n
  then ascii_of_nat (n + 32) else c.

End Chars.

(* ------------------------------------------------------------------ *)
(** ** Python string operations *)

Module PyStr.
Import Chars.

Fixpoint filter (p : ascii -> bool) (s : string) : string :=
  match s with
  | EmptyString => EmptyString
  | String c r => if p c then String c (filter p r) else filter p r
  end.

Fixpoint map (f : ascii -> ascii) (s : string) : string :=
  match s with
  | EmptyString => EmptyString
  | String c r => String (f c) (map f r)
  end.

Fixpoint all (p : ascii -> bool) (s : string) : bool :=
  match s with
  | EmptyString => true
  | String c r => p c && all p r
  end.

Fixpoint lstrip (s : string) : string :=
  match s with
  | String c r => if is_space c then lstrip r else s
  | EmptyString => EmptyString
  end.

Fixpoint rstrip (s : string) : string :=
  match s with
  | EmptyString => EmptyString
  | String c r =>
      let r' := rstrip r in
      if is_space c && String.eqb r' EmptyString then EmptyString
      else String c r'
  end.

(** [str.strip()] *)
Definition strip (s : string) : string := rstrip (lstrip s).

(** [str.lower()] *)
Definition lower (s : string) : string := map Chars.lower s.

(** [str.isdigit()]: non-empty and every character a digit. *)
Definition isdigit (s : string) : bool :=
  negb (String.eqb s EmptyString) && all is_digit_char s.

(** [re.sub(r'\s+', ' ', s)]: each maximal run of whitespace becomes one
    space.  [in_run] records that the previous character was whitespace. *)
Fixpoint collapse_ws (in_run : bool) (s : string) : string :=
  match s with
  | EmptyString => EmptyString
  | String c r =>
      if is_space c then
        if in_run then collapse_ws true r else String " " (collapse_ws true r)
      else String c (collapse_ws false r)
  end.

(** [sub in s] *)
Fixpoint contains (sub s : string) : bool :=
  String.prefix sub s ||
  match s with
  | EmptyString => false
  | String _ r => contains sub r
  end.

(** Value of a string of decimal digits, as [int] reads it. *)
Definition digit_value (c : ascii) : Z := Z.of_nat (code c) - 48.

Fixpoint digits_value_acc (acc : Z) (s : string) : Z :=
  match s with
  | EmptyString => acc
  | String c r => digits_value_acc (10 * acc + digit_value c) r
  end.

(** [int(s)] on a string that [str.isdigit] accepts: [None] is the
    [ValueError] raised on a non-decimal digit (a superscript). *)
Definition int_of_digits (s : string) : option Z :=
  if all is_decimal s then Some (digits_value_acc 0 s) else None.

(** [str(z)] for a Python [int]. *)
Fixpoint digits_rev (fuel : nat) (n : Z) : string :=
  match fuel with
  | O => EmptyString
  | S f =>
      let d := ascii_of_nat (Z.to_nat (n mod 10) + 48) in
      if Z.eqb (n / 10) 0 then String d EmptyString
      else String.append (digits_rev f (n / 10)) (String d EmptyString)
  end.

Definition str_of_Z (z : Z) : string :=
  let n := Z.abs z in
  let ds := digits_rev (S (Z.to_nat (Z.log2 n))) n in
  if Z.ltb z 0 then String "-" ds else ds.

End PyStr.

(* ------------------------------------------------------------------ *)
(** ** [normalize_song_title] *)

(** The title as the code receives it from [row.get(song_column, ...)]:
    after [pd.isna] has sent missing cells to the empty string the function works on
    [str(title)].  This is the string part of it. *)
Definition normalize_song_title (title : string) : string :=
  if String.eqb title EmptyString then EmptyString
  else
    let t := PyStr.strip title in
    let t := PyStr.filter (fun c => negb (Chars.is_symbol c)) t in
    let t := PyStr.collapse_ws false t in
    let t := PyStr.filter
               (fun c => Chars.is_word c || Chars.is_space c || Chars.is_kept_punct c) t in
    PyStr.strip t.

(* ------------------------------------------------------------------ *)
(** ** Python values: exceptions, floats, cells and headers *)

Open Scope Z_scope.

Inductive pyexn :=
  | ValueError | TypeError | OverflowError | FileNotFoundError.

Inductive res (A : Type) :=
  | Ok (a : A)
  | Raise (e : pyexn).
Arguments Ok {A} a.
Arguments Raise {A} e.

(** A finite [float] is kept as the exact decimal [m * 10 ^ e] of its
    literal; binary64 rounding of the significand is not modelled, which
    makes no difference to [int(float(s))] for literals of at most 15
    significant digits.  Overflow to infinity is modelled: a literal whose
    magnitude reaches [2^1024 - 2^970] (the rounding threshold above the
    largest double) reads as an infinity. *)
Inductive pyfloat :=
  | FFin (m e : Z)
  | FInf (neg : bool)
  | FNaN.

Module PyFloat.
Import Chars.

(** Digits after the first one of a [digitpart]: [digit (["_"] digit)*]. *)
Fixpoint more_digits (s : string) : string * string :=
  match s with
  | EmptyString => (EmptyString, EmptyString)
  | String c r =>
      if is_decimal c then
        let (d, rest) := more_digits r in (String c d, rest)
      else if Ascii.eqb c "_" then
        match r with
        | String c2 r2 =>
            if is_decimal c2 then
              let (d, rest) := more_digits r2 in (String c2 d, rest)
            else (EmptyString, s)
        | EmptyString => (EmptyString, s)
        end
      else (EmptyString, s)
  end.

Definition digitpart (s : string) : option (string * string) :=
  match s with
  | String c r =>
      if is_decimal c then let (d, rest) := more_digits r in Some (String c d, rest)
      else None
  | EmptyString => None
  end.

Definition sign_of (s : string) : bool * string :=
  match s with
  | String c r =>
      if Ascii.eqb c "-" then (true, r)
      else if Ascii.eqb c "+" then (false, r) else (false, s)
  | EmptyString => (false, s)
  end.

(** The optional exponent and the end of the literal. *)
Definition exponent (ip fp r : string) : option (Z * Z) :=
  let m := PyStr.digits_value_acc 0 (String.append ip fp) in
  let shift := Z.of_nat (String.length fp) in
  match r with
  | EmptyString => Some (m, - shift)
  | String c r' =>
      if Ascii.eqb c "e" || Ascii.eqb c "E" then
        let (neg, r'') := sign_of r' in
        match digitpart r'' with
        | Some (ed, EmptyString) =>
            let ev := PyStr.digits_value_acc 0 ed in
            Some (m, (if neg then - ev else ev) - shift)
        | _ => None
        end
      else None
  end.

(** [digitpart ["." [digitpart]] [exponent] | "." digitpart [exponent]] *)
Definition numeric (s : string) : option (Z * Z) :=
  match digitpart s with
  | Some (ip, r) =>
      match r with
      | String c r1 =>
          if Ascii.eqb c "." then
            match digitpart r1 with
            | Some (fp, r2) => exponent ip fp r2
            | None => exponent ip EmptyString r1
            end
          else exponent ip EmptyString r
      | EmptyString => exponent ip EmptyString r
      end
  | None =>
      match s with
      | String c r1 =>
          if Ascii.eqb c "." then
            match digitpart r1 with
            | Some (fp, r2) => exponent EmptyString fp r2
            | None => None
            end
          else None
      | EmptyString => None
      end
  end.

Definition overflow_threshold : Z := 2 ^ 1024 - 2 ^ 970.

Definition ndigits (n : Z) : Z := Z.of_nat (String.length (PyStr.str_of_Z n)).

(** Rounding of the decimal [m * 10 ^ e] to a double, as far as overflow. *)
Definition to_double (m e : Z) : pyfloat :=
  let a := Z.abs m in
  let big :=
    if Z.eqb a 0 then false
    else if Z.leb (ndigits a + e) 308 then false
    else if Z.leb 310 (ndigits a + e) then true
    else if Z.leb 0 e then Z.leb overflow_threshold (a * 10 ^ e)
    else Z.leb (overflow_threshold * 10 ^ (- e)) a in
  if big then FInf (Z.ltb m 0) else FFin m e.

(** [float(s)] on a string; [None] is the [ValueError]. *)
Definition py_float (s : string) : option pyfloat :=
  let (neg, body) := sign_of (PyStr.strip s) in
  let lb := PyStr.lower body in
  if String.eqb lb "inf" || String.eqb lb "infinity" then Some (FInf neg)
  else if String.eqb lb "nan" then Some FNaN
  else match numeric body with
       | Some (m, e) => Some (to_double (if neg then - m else m) e)
       | None => None
       end.

(** [int(f)] on a float: truncation toward zero. *)
Definition py_int (f : pyfloat) : res Z :=
  match f with
  | FFin m e => Ok (if Z.leb 0 e then m * 10 ^ e else Z.quot m (10 ^ (- e)))
  | FNaN => Raise ValueError
  | FInf _ => Raise OverflowError
  end.

End PyFloat.

(** A cell of the table: [None]/[NaN] from pandas, a [str], an [int], or a
    [float] given by its [repr] (a Python float is determined by its repr,
    which [str] returns). *)
Inductive cell :=
  | CNull
  | CStr (s : string)
  | CInt (z : Z)
  | CFloat (repr : string).

(** [pd.isna] *)
Definition cell_isna (c : cell) : bool :=
  match c with
  | CNull => true
  | CFloat r => match PyFloat.py_float r with Some FNaN => true | _ => false end
  | _ => false
  end.

(** [c == s] for a string literal [s]. *)
Definition cell_eq_str (c : cell) (s : string) : bool :=
  match c with CStr t => String.eqb t s | _ => false end.

(** [str(c)] *)
Definition cell_str (c : cell) : string :=
  match c with
  | CNull => "nan"
  | CStr s => s
  | CInt z => PyStr.str_of_Z z
  | CFloat r => r
  end.

(** A column label of the DataFrame. *)
Inductive header :=
  | HStr (s : string)
  | HInt (z : Z)
  | HFloat (repr : string).

Definition header_eq_dec (a b : header) : {a = b} + {a <> b}.
Proof. decide equality; first [apply string_dec | apply Z.eq_dec]. Defined.

Definition header_eqb (a b : header) : bool :=
  if header_eq_dec a b then true else false.

(** [str(col)] *)
Definition header_str (h : header) : string :=
  match h with
  | HStr s => s
  | HInt z => PyStr.str_of_Z z
  | HFloat r => r
  end.

(** A DataFrame: its column labels (pairwise distinct, as pandas' readers
    produce them) and its rows, one cell per column. *)
Record table := mk_table { columns : list header; rows : list (list cell) }.

Fixpoint index_of (h : header) (hs : list header) : option nat :=
  match hs with
  | [] => None
  | h' :: hs' =>
      if header_eqb h h' then Some O
      else option_map S (index_of h hs')
  end.

(** [row.get(col)]: the cell under the label, [None] (NaN) past the row. *)
Definition row_get (hs : list header) (row : list cell) (col : header) : cell :=
  match index_of col hs with
  | Some i => nth i row CNull
  | None => CNull
  end.

(* ------------------------------------------------------------------ *)
(** ** Schema inference: [find_chart_columns] and [find_song_column] *)

(** [list.sort(key=...)]: a stable sort, by insertion after every element
    whose key is not greater. *)
Fixpoint insert_by {A} (key : A -> Z) (x : A) (l : list A) : list A :=
  match l with
  | [] => [x]
  | y :: l' => if Z.ltb (key x) (key y) then x :: l else y :: insert_by key x l'
  end.

Definition sort_by {A} (key : A -> Z) (l : list A) : list A :=
  fold_left (fun acc x => insert_by key x acc) l [].

(** The body of the loop of [find_chart_columns] for one column: [Ok None]
    is a [continue] (also the caught [ValueError] / [TypeError]), [Ok (Some n)]
    the parsed [chart_num], [Raise] an exception that escapes the [except]. *)
Definition chart_num_of (col : header) : res (option Z) :=
  let col_str := PyStr.strip (header_str col) in
  if PyStr.isdigit col_str then
    match PyStr.int_of_digits col_str with
    | Some n => Ok (Some n)
    | None => Ok None
    end
  else
    match col with
    | HInt z => Ok (Some z)
    | HFloat r =>
        match PyFloat.py_float r with
        | Some f =>
            match PyFloat.py_int f with
            | Ok n => Ok (Some n)
            | Raise ValueError | Raise TypeError => Ok None
            | Raise e => Raise e
            end
        | None => Ok None
        end
    | HStr _ =>
        (* [re.match(r'^(\d+)$', col_str)] *)
        if negb (String.eqb col_str EmptyString) && PyStr.all Chars.is_decimal col_str
        then Ok (Some (PyStr.digits_value_acc 0 col_str))
        else Ok None
    end.

Fixpoint collect_chart_columns (cols : list header) (acc : list (header * Z))
  : res (list (header * Z)) :=
  match cols with
  | [] => Ok acc
  | col :: rest =>
      match chart_num_of col with
      | Raise e => Raise e
      | Ok (Some n) =>
          if Z.leb 1 n && Z.leb n 99
          then collect_chart_columns rest (acc ++ [(col, n)])
          else collect_chart_columns rest acc
      | Ok None => collect_chart_columns rest acc
      end
  end.

Definition find_chart_columns (cols : list header) : res (list (header * Z)) :=
  match collect_chart_columns cols [] with
  | Ok cc => Ok (sort_by snd cc)
  | Raise e => Raise e
  end.

Definition possible_song_columns : list string :=
  ["Song"; "song"; "SONG"; "Title"; "title"; "TITLE"; "Track"; "track"; "TRACK"].

Definition exact_song_header (col : header) : bool :=
  existsb (String.eqb (PyStr.strip (header_str col))) possible_song_columns.

Definition partial_song_header (col : header) : bool :=
  let s := PyStr.lower (PyStr.strip (header_str col)) in
  PyStr.contains "song" s || PyStr.contains "title" s || PyStr.contains "track" s.

Definition find_song_column (cols : list header) : option header :=
  match find exact_song_header cols with
  | Some c => Some c
  | None => find partial_song_header cols
  end.

(* ------------------------------------------------------------------ *)
(** ** The processor state and [process_chart_data] *)

(** A song record ([song_data]); [positions] is the Python dict, as an
    association list in insertion order. *)
Record song := mk_song {
  title : string;
  positions : list (Z * option Z);
  total_charts : Z }.

Record processor := mk_processor {
  data_path : string;
  songs : list song;
  num_charts : Z }.

(** [ChartDataProcessor.__init__] *)
Definition init_processor (path : string) : processor := mk_processor path [] 0.

(** [d[k] = v] on a dict: update in place, or append a new key. *)
Fixpoint dict_set (k : Z) (v : option Z) (d : list (Z * option Z)) : list (Z * option Z) :=
  match d with
  | [] => [(k, v)]
  | (k', v') :: d' => if Z.eqb k k' then (k, v) :: d' else (k', v') :: dict_set k v d'
  end.

(** [d.get(k)], flattening a missing key and a stored [None]. *)
Fixpoint dict_get (k : Z) (d : list (Z * option Z)) : option Z :=
  match d with
  | [] => None
  | (k', v) :: d' => if Z.eqb k k' then v else dict_get k d'
  end.

(** [k in d] *)
Definition dict_mem (k : Z) (d : list (Z * option Z)) : bool :=
  existsb (fun kv => Z.eqb (fst kv) k) d.

(** What the body of the inner loop does with one cell. *)
Inductive cell_outcome :=
  | Stored (v : option Z)    (* stored value *)
  | Warned                   (* caught ValueError/TypeError: warning, None stored *)
  | Escaped (e : pyexn).     (* an exception the [except] does not catch *)

Definition read_position (position : cell) : cell_outcome :=
  if cell_isna position || cell_eq_str position "--"
     || cell_eq_str position EmptyString || cell_eq_str position " "
  then Stored None
  else
    let position_val := PyStr.strip (cell_str position) in
    if String.eqb position_val "--" || String.eqb position_val EmptyString
    then Stored None
    else
      match PyFloat.py_float position_val with
      | None => Warned
      | Some f =>
          match PyFloat.py_int f with
          | Ok n => Stored (Some n)
          | Raise ValueError | Raise TypeError => Warned
          | Raise e => Escaped e
          end
      end.

(** A printed warning: song title and chart number. *)
Definition warning : Type := (string * Z)%type.

Fixpoint fill_positions (hs : list header) (row : list cell) (song_title : string)
  (cols : list (header * Z)) (pos : list (Z * option Z)) (ws : list warning)
  : res (list (Z * option Z) * list warning) :=
  match cols with
  | [] => Ok (pos, ws)
  | (col_name, chart_num) :: rest =>
      match read_position (row_get hs row col_name) with
      | Stored v => fill_positions hs row song_title rest (dict_set chart_num v pos) ws
      | Warned =>
          fill_positions hs row song_title rest (dict_set chart_num None pos)
            (ws ++ [(song_title, chart_num)])
      | Escaped e => Raise e
      end
  end.

Definition count_charted (pos : list (Z * option Z)) : Z :=
  Z.of_nat (List.length (List.filter (fun kv => match snd kv with Some _ => true | None => false end) pos)).

(** [normalize_song_title(row.get(song_column, ""))] *)
Definition title_of_cell (c : cell) : string :=
  if cell_isna c then EmptyString else normalize_song_title (cell_str c).

(** The loop [for idx, row in df.iterrows()].  The songs appended so far
    stay in [self.songs] when an exception leaves the loop. *)
Fixpoint process_rows (hs : list header) (song_column : header)
  (cols : list (header * Z)) (rws : list (list cell))
  (acc : list song) (processed skipped : Z) (ws : list warning)
  : list song * res (Z * Z * list warning) :=
  match rws with
  | [] => (acc, Ok (processed, skipped, ws))
  | row :: rest =>
      let song_title := title_of_cell (row_get hs row song_column) in
      if String.eqb song_title EmptyString then
        process_rows hs song_column cols rest acc processed (skipped + 1) ws
      else
        match fill_positions hs row song_title cols [] ws with
        | Raise e => (acc, Raise e)
        | Ok (pos, ws') =>
            let s := mk_song song_title pos (count_charted pos) in
            if Z.ltb 0 (total_charts s) then
              process_rows hs song_column cols rest (acc ++ [s]) (processed + 1) skipped ws'
            else
              process_rows hs song_column cols rest acc processed (skipped + 1) ws'
        end
  end.

(** [os.path.splitext(path)[1]] for a POSIX path. *)
Fixpoint take_until_slash (l : list ascii) : list ascii :=
  match l with
  | [] => []
  | c :: l' => if Ascii.eqb c "/" then [] else c :: take_until_slash l'
  end.

Fixpoint split_at_dot (l : list ascii) : option (list ascii * list ascii) :=
  match l with
  | [] => None
  | c :: l' =>
      if Ascii.eqb c "." then Some ([], l')
      else match split_at_dot l' with
           | Some (a, b) => Some (c :: a, b)
           | None => None
           end
  end.

Definition splitext_ext (path : string) : string :=
  let rb := take_until_slash (rev (list_ascii_of_string path)) in
  match split_at_dot rb with
  | Some (ext_rev, before_rev) =>
      if existsb (fun c => negb (Ascii.eqb c ".")) before_rev
      then string_of_list_ascii ("."%char :: rev ext_rev)
      else EmptyString
  | None => EmptyString
  end.

Definition is_excel_ext (ext : string) : bool :=
  String.eqb ext ".xlsx" || String.eqb ext ".xls".

(** [read_data_file]: the extension dispatch of the source.  The file system
    is the argument [contents]: the table pandas reads from the path (for a
    workbook, sheet "Chart" or else the first sheet), [None] when the file
    does not exist. *)
Definition read_data_file (path : string) (contents : option table) : res table :=
  let file_ext := PyStr.lower (splitext_ext path) in
  if is_excel_ext file_ext || String.eqb file_ext ".csv" then
    match contents with
    | Some df => Ok df
    | None => Raise FileNotFoundError
    end
  else Raise ValueError.

(** The messages [process_chart_data] returns. *)
Inductive message :=
  | MsgLoaded (processed charts : Z) (excel : bool)
  | MsgNoSongColumn
  | MsgNoChartColumns
  | MsgFileNotFound
  | MsgReadError
  | MsgUnexpected (e : pyexn).

(** The three [except] clauses of [process_chart_data]. *)
Definition handle_exn (e : pyexn) : message :=
  match e with
  | FileNotFoundError => MsgFileNotFound
  | ValueError => MsgReadError
  | _ => MsgUnexpected e
  end.

Definition set_songs (st : processor) (sgs : list song) : processor :=
  mk_processor (data_path st) sgs (num_charts st).

Definition set_num_charts (st : processor) (n : Z) : processor :=
  mk_processor (data_path st) (songs st) n.

(** [process_chart_data]: the new processor state, [(success, message)] and
    the warnings printed for invalid position values. *)
Definition process_chart_data (st : processor) (contents : option table)
  : processor * (bool * message) * list warning :=
  match read_data_file (data_path st) contents with
  | Raise e => (st, (false, handle_exn e), [])
  | Ok df =>
      match find_song_column (columns df) with
      | None => (st, (false, MsgNoSongColumn), [])
      | Some song_column =>
          match find_chart_columns (columns df) with
          | Raise e => (st, (false, handle_exn e), [])
          | Ok [] => (st, (false, MsgNoChartColumns), [])
          | Ok chart_columns =>
              let st1 := set_num_charts st (Z.of_nat (List.length chart_columns)) in
              match process_rows (columns df) song_column chart_columns (rows df)
                      (songs st1) 0 0 [] with
              | (sgs, Ok (processed, _, ws)) =>
                  (set_songs st1 sgs,
                   (true, MsgLoaded processed (num_charts st1)
                            (is_excel_ext (PyStr.lower (splitext_ext (data_path st))))),
                   ws)
              | (sgs, Raise e) => (set_songs st1 sgs, (false, handle_exn e), [])
              end
          end
      end
  end.

Definition run_state (r : processor * (bool * message) * list warning) : processor :=
  fst (fst r).
Definition run_ok (r : processor * (bool * message) * list warning) : bool :=
  fst (snd (fst r)).
Definition run_message (r : processor * (bool * message) * list warning) : message :=
  snd (snd (fst r)).

(* ------------------------------------------------------------------ *)
(** ** [get_chart_data] *)

Record entry := mk_entry {
  e_position : Z;
  e_prev : option Z;
  e_title : string;
  e_total : Z }.

(** [for prev_num in range(k, 0, -1): if prev_num in positions: ...; break] *)
Fixpoint prev_search (pos : list (Z * option Z)) (k : Z) (fuel : nat) : option Z :=
  match fuel with
  | O => None
  | S f => if dict_mem k pos then dict_get k pos else prev_search pos (k - 1) f
  end.

Definition prev_position (pos : list (Z * option Z)) (chart_number : Z) : option Z :=
  if Z.ltb 1 chart_number
  then prev_search pos (chart_number - 1) (Z.to_nat (chart_number - 1))
  else None.

Definition entry_of (chart_number : Z) (s : song) : option entry :=
  match dict_get chart_number (positions s) with
  | Some p => Some (mk_entry p (prev_position (positions s) chart_number) (title s) (total_charts s))
  | None => None
  end.

Definition get_chart_data (sgs : list song) (chart_number : Z) : list entry :=
  sort_by e_position
    (flat_map (fun s => match entry_of chart_number s with Some e => [e] | None => [] end) sgs).

(* ------------------------------------------------------------------ *)
(** ** Movement classification of [get_chart] in [app.py] *)

Inductive movement := New | Riser | Faller | Same | Reentry.

(** [for song in processor.songs: if song["title"] == item["title"]: ...; break] *)
Definition find_by_title (t : string) (sgs : list song) : option song :=
  find (fun s => String.eqb (title s) t) sgs.

(** [range(a, b)] *)
Definition py_range (a b : Z) : list Z :=
  List.map (fun i => a + Z.of_nat i) (seq 0 (Z.to_nat (b - a))).

Definition charted_before (s : song) (chart_number : Z) : bool :=
  existsb (fun k => match dict_get k (positions s) with Some _ => true | None => false end)
    (py_range 1 chart_number).

Definition movement_type (sgs : list song) (chart_number : Z) (item : entry) : movement :=
  match e_prev item with
  | None =>
      let is_reentry :=
        if Z.ltb 1 chart_number then
          match find_by_title (e_title item) sgs with
          | Some s => charted_before s chart_number
          | None => false
          end
        else false in
      if is_reentry then Reentry else New
  | Some prev =>
      let movement_value := prev - e_position item in
      if Z.leb 1 movement_value then Riser
      else if Z.leb movement_value (-1) then Faller
      else Same
  end.

(* ------------------------------------------------------------------ *)
(** ** [get_song_history] of the processor *)

(** [for song in self.songs: if song["title"].lower() == song_title.lower():
    return {...}]: the returned dict carries the three fields of the record,
    so it is the record itself; [None] when the loop ends. *)
Module ChartDataProcessor.

Definition get_song_history (sgs : list song) (song_title : string) : option song :=
  find (fun s => String.eqb (PyStr.lower (title s)) (PyStr.lower song_title)) sgs.

End ChartDataProcessor.

(* ------------------------------------------------------------------ *)
(** ** Song statistics of [app.py] *)

(** [song_data["positions"].values()] *)
Definition position_values (s : song) : list (option Z) := List.map snd (positions s).

(** [calculate_total_points] *)
Definition calculate_total_points (s : song) : Z :=
  fold_left (fun total_points position =>
               match position with
               | Some p => if Z.leb p 100 then total_points + (101 - p) else total_points
               | None => total_points
               end)
    (position_values s) 0.

(** [count_number_ones]: [position == 1] is false for [None]. *)
Definition count_number_ones (s : song) : Z :=
  fold_left (fun count position =>
               match position with
               | Some p => if Z.eqb p 1 then count + 1 else count
               | None => count
               end)
    (position_values s) 0.

(** [[pos for pos in song_data["positions"].values() if pos is not None]] *)
Definition present_positions (s : song) : list Z :=
  flat_map (fun position => match position with Some p => [p] | None => [] end)
    (position_values s).

(** [min(l)], [max(l)] and [sum(l)] on [p :: ps]. *)
Definition py_min (p : Z) (ps : list Z) : Z := fold_left Z.min ps p.
Definition py_max (p : Z) (ps : list Z) : Z := fold_left Z.max ps p.
Definition py_sum (l : list Z) : Z := fold_left Z.add l 0.

(** [get_top_spot] *)
Definition get_top_spot (s : song) : option Z :=
  match present_positions s with
  | [] => None
  | p :: ps => Some (py_min p ps)
  end.

(** The dict [calculate_song_stats] returns.  [avg_position] is the exact
    quotient [sum(positions) / len(positions)] (the code returns the binary64
    float nearest to it), and the [0] of the empty case. *)
Record song_stats := mk_stats {
  stat_total_charts : Z;
  stat_avg_position : QArith_base.Q;
  stat_best_position : Z;
  stat_worst_position : Z }.

(** [calculate_song_stats] *)
Definition calculate_song_stats (s : song) : song_stats :=
  match present_positions s with
  | [] => mk_stats 0 (QArith_base.Qmake 0 1) 0 0
  | p :: ps =>
      mk_stats (Z.of_nat (List.length (p :: ps)))
        (QArith_base.Qmake (py_sum (p :: ps)) (Pos.of_nat (List.length (p :: ps))))
        (py_min p ps) (py_max p ps)
  end.

(* ------------------------------------------------------------------ *)
(** ** The chart endpoint [get_chart] of [app.py] *)

(** One object of the [data] list of the response; [row_prev = None] is the
    string [--]. *)
Record chart_row := mk_row {
  row_position : Z;
  row_prev : option Z;
  row_title : string;
  row_total_charts : Z;
  row_movement : movement;
  row_movement_value : Z;
  row_total_points : Z;
  row_number_ones : Z;
  row_top_spot : option Z }.

(** The dict [movement_counts]. *)
Record movement_counts := mk_counts {
  count_new : Z; count_riser : Z; count_faller : Z; count_same : Z; count_reentry : Z }.

Definition zero_counts : movement_counts := mk_counts 0 0 0 0 0.

(** [movement_counts[movement_type] += 1] *)
Definition bump (m : movement) (c : movement_counts) : movement_counts :=
  match m with
  | New => mk_counts (count_new c + 1) (count_riser c) (count_faller c) (count_same c) (count_reentry c)
  | Riser => mk_counts (count_new c) (count_riser c + 1) (count_faller c) (count_same c) (count_reentry c)
  | Faller => mk_counts (count_new c) (count_riser c) (count_faller c + 1) (count_same c) (count_reentry c)
  | Same => mk_counts (count_new c) (count_riser c) (count_faller c) (count_same c + 1) (count_reentry c)
  | Reentry => mk_counts (count_new c) (count_riser c) (count_faller c) (count_same c) (count_reentry c + 1)
  end.

(** [range(a, 0, -1)] *)
Definition py_range_down (a : Z) : list Z :=
  List.map (fun i => a - Z.of_nat i) (seq 0 (Z.to_nat a)).

(** [for i in ...: if song["positions"].get(i) is not None: latest_position = ...; break] *)
Fixpoint first_present (pos : list (Z * option Z)) (ks : list Z) : option Z :=
  match ks with
  | [] => None
  | k :: ks' =>
      match dict_get k pos with
      | Some p => Some p
      | None => first_present pos ks'
      end
  end.

(** [latest_position] of the "All Songs" view. *)
Definition latest_position (s : song) (n : Z) : option Z :=
  match dict_get n (positions s) with
  | Some p => Some p
  | None => first_present (positions s) (py_range_down n)
  end.

(** The object built for one song in the "All Songs" view, with
    [latest_position if latest_position else 999]. *)
Definition all_songs_row (n : Z) (s : song) : chart_row :=
  mk_row
    (match latest_position s n with
     | Some p => if Z.eqb p 0 then 999 else p
     | None => 999
     end)
    None (title s) (total_charts s) Same 0
    (calculate_total_points s) (count_number_ones s) (get_top_spot s).

Definition set_row_position (r : chart_row) (idx : Z) : chart_row :=
  mk_row idx (row_prev r) (row_title r) (row_total_charts r) (row_movement r)
    (row_movement_value r) (row_total_points r) (row_number_ones r) (row_top_spot r).

(** [for idx, item in enumerate(formatted_data, 1): item["position"] = idx] *)
Fixpoint renumber (idx : Z) (l : list chart_row) : list chart_row :=
  match l with
  | [] => []
  | r :: l' => set_row_position r idx :: renumber (idx + 1) l'
  end.

(** [formatted_data.sort(key=lambda x: x["total_points"], reverse=True)]:
    Python's [reverse=True] keeps equal keys in their original order, so
    this is the stable ascending sort on the negated key. *)
Definition all_songs_view (p : processor) : list chart_row :=
  renumber 1
    (sort_by (fun r => - row_total_points r)
       (List.map (all_songs_row (num_charts p)) (songs p))).

(** [total_points], [number_ones] and [top_spot] of the first record whose
    title equals the entry's title, [0, 0, None] when there is none. *)
Definition title_stats (sgs : list song) (t : string) : Z * Z * option Z :=
  match find_by_title t sgs with
  | Some s => (calculate_total_points s, count_number_ones s, get_top_spot s)
  | None => (0, 0, None)
  end.

(** [movement_value]: [prev_position - position], [0] without a previous
    position. *)
Definition movement_value (item : entry) : Z :=
  match e_prev item with
  | Some prev => prev - e_position item
  | None => 0
  end.

(** [item["prev_position"] if item["prev_position"] else "--"] *)
Definition prev_display (prev : option Z) : option Z :=
  match prev with
  | Some p => if Z.eqb p 0 then None else Some p
  | None => None
  end.

Definition chart_row_of (sgs : list song) (n : Z) (item : entry) : chart_row :=
  let '(tp, ones, top) := title_stats sgs (e_title item) in
  mk_row (e_position item) (prev_display (e_prev item)) (e_title item) (e_total item)
    (movement_type sgs n item) (movement_value item) tp ones top.

(** The loop [for item in chart_data] of a regular chart. *)
Definition regular_chart (sgs : list song) (n : Z) : list chart_row * movement_counts :=
  fold_left (fun acc item =>
               let '(formatted_data, mc) := acc in
               ((formatted_data ++ [chart_row_of sgs n item])%list, bump (movement_type sgs n item) mc))
    (get_chart_data sgs n) ([], zero_counts).

(* ------------------------------------------------------------------ *)
(** ** The song endpoints of [app.py] *)

(** [for chart_num in range(1, num_charts + 1): position = ...get(chart_num);
    if position is not None: chart_data.append(...)] *)
Definition history_chart_data (pos : list (Z * option Z)) (n : Z) : list (Z * Z) :=
  flat_map (fun chart_num =>
              match dict_get chart_num pos with
              | Some position => [(chart_num, position)]
              | None => []
              end)
    (py_range 1 (n + 1)).

(* ------------------------------------------------------------------ *)
(** ** The session of the authentication routes *)

(** The Flask session, as its entries; the routes store strings in it. *)
Definition session : Type := list (string * string).

(** [session.get(k)] *)
Fixpoint session_get (k : string) (s : session) : option string :=
  match s with
  | [] => None
  | (k', v) :: s' => if String.eqb k k' then Some v else session_get k s'
  end.

(** [k in session] *)
Definition session_mem (k : string) (s : session) : bool :=
  existsb (fun kv => String.eqb (fst kv) k) s.

(* ------------------------------------------------------------------ *)
(** ** The routes of [app.py] *)

Module App.

(** A response of [get_chart]: an error object with its status, or the
    chart object (status 200). *)
Inductive chart_response :=
  | ChartError (status : Z) (error : string)
  | ChartBody (chart_number : Z) (data : list chart_row) (mc : movement_counts).

(** [get_chart(chart_number)]; [success] is the module-level result of the
    startup ingestion and [p] the processor. *)
Definition get_chart (success : bool) (p : processor) (chart_number : Z) : chart_response :=
  if negb success then ChartError 500 "No data available"
  else if Z.ltb chart_number 0 || Z.ltb (num_charts p) chart_number
  then ChartError 400 "Invalid chart number"
  else if Z.eqb chart_number 0
  then ChartBody 0 (all_songs_view p) zero_counts
  else
    let '(formatted_data, mc) := regular_chart (songs p) chart_number in
    ChartBody chart_number formatted_data mc.

(** A response of [get_song]. *)
Inductive song_response :=
  | SongError (status : Z) (error : string)
  | SongBody (title : string) (chart_data : list (Z * Z)) (stats : song_stats).

(** [get_song(song_title)] *)
Definition get_song (success : bool) (p : processor) (song_title : string) : song_response :=
  if negb success then SongError 500 "No data available"
  else
    match ChartDataProcessor.get_song_history (songs p) song_title with
    | None => SongError 404 "Song not found"
    | Some h =>
        SongBody (title h) (history_chart_data (positions h) (num_charts p))
          (calculate_song_stats h)
    end.

(** A response of the route [get_song_history]. *)
Inductive history_response :=
  | HistoryError (status : Z) (error : string)
  | HistoryBody (title : string) (chart_data : list (Z * Z)) (total_charts : Z).

(** The route [get_song_history(song_title)]. *)
Definition get_song_history (success : bool) (p : processor) (song_title : string)
  : history_response :=
  if negb success then HistoryError 500 "No data available"
  else
    match ChartDataProcessor.get_song_history (songs p) song_title with
    | None => HistoryError 404 "Song not found"
    | Some h =>
        HistoryBody (title h) (history_chart_data (positions h) (num_charts p)) (total_charts h)
    end.

(** [auth_logout]: the new session and the [success] field. *)
Definition auth_logout (s : session) : session * bool :=
  if session_mem "user" s then ([], true) else (s, true).

(** [auth_status]: [logged_in], [username], [profile_pic]; a user entry is
    truthy when it is a non-empty string. *)
Definition auth_status (s : session) : bool * option string * option string :=
  let user := session_get "user" s in
  let profile_pic := session_get "profile_pic" s in
  match user with
  | Some u =>
      if String.eqb u EmptyString then (false, None, None) else (true, Some u, profile_pic)
  | None => (false, None, None)
  end.

End App.

(* ------------------------------------------------------------------ *)
(** ** Normalization in [comment_manager.py] *)

(** [song_title.lower().strip()], the key of [get_comments] and [add_comment]. *)
Definition song_key (song_title : string) : string := PyStr.strip (PyStr.lower song_title).

(** [text.strip()[:200]] of [add_comment] and [update_comment]. *)
Definition comment_text (text : string) : string := substring 0 200 (PyStr.strip text).

(* ================================================================== *)
(** * Properties *)

Open Scope list_scope.

(** Sample tables. *)
Module Samples.

(** The scenario of the spec: two songs, two editions. *)
Definition two_songs : table :=
  mk_table [HStr "Song"; HStr "1"; HStr "2"]
    [[CStr "Song A"; CInt 5; CInt 3]; [CStr "Song B"; CNull; CInt 1]].

(** A CSV whose only position cell reads [inf]. *)
Definition inf_cell : table :=
  mk_table [HStr "Song"; HStr "1"] [[CStr "A"; CStr "inf"]].

(** A song absent from edition 2 between two charted editions. *)
Definition gap : table :=
  mk_table [HStr "Song"; HStr "1"; HStr "2"; HStr "3"]
    [[CStr "A"; CInt 5; CStr "--"; CInt 4]].

(** Two rows whose titles coincide; the second one charts in editions 1
    and 3, the first one only in edition 4. *)
Definition dup_title : table :=
  mk_table [HStr "Song"; HStr "1"; HStr "2"; HStr "3"; HStr "4"]
    [[CStr "X"; CStr "--"; CStr "--"; CStr "--"; CInt 1];
     [CStr "X"; CInt 4; CStr "--"; CInt 7; CStr "--"]].

(** Headers where a partial match precedes a differently cased exact one. *)
Definition song_headers : list header := [HStr "Song Title"; HStr "sOng"; HStr "1"].

(** Edition headers with surrounding whitespace and a fractional float. *)
Definition edition_headers : list header := [HStr "Title"; HStr " 3"; HFloat "2.5"].

(** Two rows whose titles differ only in case. *)
Definition case_dup : table :=
  mk_table [HStr "Song"; HStr "1"] [[CStr "Hello"; CInt 1]; [CStr "hello"; CInt 2]].

(** Two edition headers that parse to the same number. *)
Definition dup_edition : table :=
  mk_table [HStr "Song"; HStr "1"; HStr "01"] [[CStr "A"; CInt 5; CInt 6]].

End Samples.

Example two_songs_loaded :
  songs (run_state (process_chart_data (init_processor "Chart.csv") (Some Samples.two_songs)))
  = [mk_song "Song A" [(1, Some 5); (2, Some 3)] 2;
     mk_song "Song B" [(1, None); (2, Some 1)] 1].
Proof. reflexivity. Qed.

Example two_songs_chart2 :
  let sg := songs (run_state (process_chart_data (init_processor "Chart.csv") (Some Samples.two_songs))) in
  List.map (fun e => (e_title e, e_position e, e_prev e, movement_type sg 2 e)) (get_chart_data sg 2)
  = [("Song B", 1, None, New); ("Song A", 3, Some 5, Riser)].
Proof. reflexivity. Qed.

(* ------------------------------------------------------------------ *)
(** ** Title normalizer *)

(** C3: [normalize_song_title] is not idempotent.  On [a ! b] the run of
    spaces is collapsed before the [!] between the two spaces is removed,
    so one application leaves two spaces and a second one collapses them. *)
Theorem normalize_song_title_twice_differs :
  normalize_song_title "a ! b" = "a  b" /\
  normalize_song_title (normalize_song_title "a ! b") = "a b".
Proof. split; reflexivity. Qed.

(* ------------------------------------------------------------------ *)
(** ** Reading position cells *)

(** C7: the cell outcomes of the spec's scenario hold ([--] is absent,
    [3.0] is rank 3, an unparsable cell is a warning with [None] stored),
    but a cell reading [inf] parses as a float whose [int] raises
    [OverflowError], which the [except (ValueError, TypeError)] does not
    catch: ingestion of the whole table fails with the unexpected-error
    message instead of continuing. *)
Theorem read_position_inf_aborts_ingestion :
  read_position (CStr "--") = Stored None /\
  read_position (CStr "3.0") = Stored (Some 3) /\
  read_position (CStr "abc") = Warned /\
  read_position (CStr "inf") = Escaped OverflowError /\
  process_chart_data (init_processor "Chart.csv") (Some Samples.inf_cell)
  = (mk_processor "Chart.csv" [] 1, (false, MsgUnexpected OverflowError), []).
Proof. repeat split; reflexivity. Qed.

(* ------------------------------------------------------------------ *)
(** ** Re-running ingestion *)

Lemma process_rows_acc hs sc cols rws : forall acc p sk ws,
  process_rows hs sc cols rws acc p sk ws =
  (acc ++ fst (process_rows hs sc cols rws [] p sk ws),
   snd (process_rows hs sc cols rws [] p sk ws)).
Proof.
  induction rws as [|row rest IH]; intros acc p sk ws; simpl.
  - rewrite app_nil_r. reflexivity.
  - destruct (String.eqb _ EmptyString); [apply IH|].
    destruct (fill_positions _ _ _ _ _ _) as [[pos ws']|e]; [|simpl; rewrite app_nil_r; reflexivity].
    destruct (Z.ltb 0 _); [|apply IH].
    rewrite (IH (acc ++ _)), (IH [_]). simpl. rewrite <- app_assoc. reflexivity.
Qed.

(** A successful run of [process_chart_data], step by step. *)
Lemma process_chart_data_success st contents :
  run_ok (process_chart_data st contents) = true ->
  exists df sc cols processed sk ws sgs,
    read_data_file (data_path st) contents = Ok df /\
    find_song_column (columns df) = Some sc /\
    find_chart_columns (columns df) = Ok cols /\ cols <> [] /\
    process_rows (columns df) sc cols (rows df) (songs st) 0 0 [] = (sgs, Ok (processed, sk, ws)) /\
    run_state (process_chart_data st contents)
      = mk_processor (data_path st) sgs (Z.of_nat (List.length cols)).
Proof.
  unfold run_ok, run_state, process_chart_data.
  destruct (read_data_file (data_path st) contents) as [df|e] eqn:Hr; [|discriminate].
  destruct (find_song_column (columns df)) as [sc|] eqn:Hs; [|discriminate].
  destruct (find_chart_columns (columns df)) as [[|c cs]|e] eqn:Hc; try discriminate.
  simpl.
  destruct (process_rows _ _ _ _ (songs st) 0 0 []) as [sgs [[[p sk] ws]|e]] eqn:E;
    [|discriminate].
  intros _. exists df, sc, (c :: cs), p, sk, ws, sgs.
  repeat split; try assumption; try discriminate.
Qed.

(** Conversely, the outcome of a run whose steps are known. *)
Lemma process_chart_data_steps st contents df sc cols sgs o :
  read_data_file (data_path st) contents = Ok df ->
  find_song_column (columns df) = Some sc ->
  find_chart_columns (columns df) = Ok cols -> cols <> [] ->
  process_rows (columns df) sc cols (rows df) (songs st) 0 0 [] = (sgs, o) ->
  run_state (process_chart_data st contents)
    = mk_processor (data_path st) sgs (Z.of_nat (List.length cols)).
Proof.
  intros Hr Hs Hc Hne E.
  unfold run_state, process_chart_data. rewrite Hr, Hs, Hc.
  destruct cols as [|c cs]; [congruence|]. simpl in E |- *. rewrite E.
  destruct o as [[[p sk] ws]|e]; reflexivity.
Qed.

(** C2: ingestion does not reset [self.songs]: after a successful run from a
    fresh processor, a second run on the same table appends the same records
    again, while [num_charts] is recomputed to the same value. *)
Theorem process_chart_data_rerun_appends (path : string) (contents : option table) :
  run_ok (process_chart_data (init_processor path) contents) = true ->
  let st1 := run_state (process_chart_data (init_processor path) contents) in
  let st2 := run_state (process_chart_data st1 contents) in
  songs st2 = songs st1 ++ songs st1 /\ num_charts st2 = num_charts st1.
Proof.
  intros Hok. cbv zeta.
  destruct (process_chart_data_success _ _ Hok)
    as (df & sc & cols & p & sk & ws & sgs & Hr & Hs & Hc & Hne & E & Hst).
  rewrite Hst. simpl in E, Hr.
  rewrite (process_chart_data_steps _ _ df sc cols (sgs ++ sgs) (Ok (p, sk, ws)));
    simpl; auto.
  rewrite process_rows_acc, E. reflexivity.
Qed.

Lemma process_chart_data_rerun_appends_witness :
  run_ok (process_chart_data (init_processor "Chart.csv") (Some Samples.two_songs)) = true /\
  songs (run_state (process_chart_data
          (run_state (process_chart_data (init_processor "Chart.csv") (Some Samples.two_songs)))
          (Some Samples.two_songs)))
  = songs (run_state (process_chart_data (init_processor "Chart.csv") (Some Samples.two_songs)))
    ++ songs (run_state (process_chart_data (init_processor "Chart.csv") (Some Samples.two_songs))).
Proof.
  split; [reflexivity|].
  apply (process_chart_data_rerun_appends "Chart.csv" (Some Samples.two_songs)).
  reflexivity.
Defined.


(* ------------------------------------------------------------------ *)
(** ** The [total_charts] invariant *)

(** The non-absent values of a positions mapping. *)
Definition non_absent_values (pos : list (Z * option Z)) : list Z :=
  flat_map (fun kv => match snd kv with Some v => [v] | None => [] end) pos.

Definition song_invariant (s : song) : Prop :=
  total_charts s = Z.of_nat (List.length (non_absent_values (positions s))) /\
  0 < total_charts s.

Lemma count_charted_non_absent pos :
  count_charted pos = Z.of_nat (List.length (non_absent_values pos)).
Proof.
  unfold count_charted, non_absent_values. f_equal.
  induction pos as [|[k [v|]] pos IH]; simpl; auto.
Qed.

Lemma process_rows_invariant hs sc cols rws : forall acc p sk ws,
  Forall song_invariant acc ->
  Forall song_invariant (fst (process_rows hs sc cols rws acc p sk ws)).
Proof.
  induction rws as [|row rest IH]; intros acc p sk ws Hacc; simpl; auto.
  destruct (String.eqb _ EmptyString); [apply IH; exact Hacc|].
  destruct (fill_positions _ _ _ _ _ _) as [[pos ws']|e]; [|exact Hacc].
  destruct (Z.ltb 0 (count_charted pos)) eqn:Hlt; [|apply IH; exact Hacc].
  apply IH, Forall_app. split; [exact Hacc|].
  constructor; [|constructor].
  unfold song_invariant; simpl. split.
  - apply count_charted_non_absent.
  - apply Z.ltb_lt. exact Hlt.
Qed.

(** C8: every record ingestion adds satisfies [total_charts] = number of
    non-absent values of [positions] and [total_charts > 0]; so the
    invariant holds of the dataset after any ingestion run that starts from
    a dataset where it holds (in particular from a fresh processor). *)
Theorem process_chart_data_song_invariant (st : processor) (contents : option table) :
  Forall song_invariant (songs st) ->
  Forall song_invariant (songs (run_state (process_chart_data st contents))).
Proof.
  intros Hst. unfold run_state, process_chart_data.
  destruct (read_data_file _ _) as [df|e]; [|exact Hst].
  destruct (find_song_column _) as [sc|]; [|exact Hst].
  destruct (find_chart_columns _) as [[|c cs]|e]; try exact Hst.
  simpl.
  pose proof (process_rows_invariant (columns df) sc (c :: cs) (rows df) (songs st) 0 0 [] Hst)
    as H.
  destruct (process_rows _ _ _ _ _ 0 0 []) as [sgs [[[p sk] ws]|e]]; exact H.
Qed.

Lemma process_chart_data_song_invariant_witness :
  Forall song_invariant (songs (init_processor "Chart.csv")) /\
  Forall song_invariant
    (songs (run_state (process_chart_data (init_processor "Chart.csv") (Some Samples.two_songs)))).
Proof.
  split; [constructor|].
  apply process_chart_data_song_invariant. constructor.
Defined.

(* ------------------------------------------------------------------ *)
(** ** [get_chart_data]: membership and the previous position *)

Section SortBy.
Context {A : Type} (key : A -> Z).

Lemma insert_by_perm x l : Permutation (insert_by key x l) (x :: l).
Proof.
  induction l as [|y l IH]; simpl; [constructor; constructor|].
  destruct (Z.ltb (key x) (key y)); [reflexivity|].
  etransitivity; [apply perm_skip, IH|apply perm_swap].
Qed.

Lemma fold_insert_perm l : forall acc,
  Permutation (fold_left (fun acc x => insert_by key x acc) l acc) (l ++ acc).
Proof.
  induction l as [|x l IH]; intros acc; simpl; [reflexivity|].
  rewrite IH, insert_by_perm. symmetry. apply Permutation_middle.
Qed.

Lemma sort_by_perm l : Permutation (sort_by key l) l.
Proof. unfold sort_by. rewrite fold_insert_perm, app_nil_r. reflexivity. Qed.

Lemma sort_by_in l x : In x (sort_by key l) <-> In x l.
Proof.
  split; apply Permutation_in; [|symmetry]; apply sort_by_perm.
Qed.

End SortBy.

Lemma prev_search_spec pos fuel : forall k, k = Z.of_nat fuel ->
  (exists k0, 1 <= k0 <= k /\ dict_mem k0 pos = true /\
     (forall k', k0 < k' <= k -> dict_mem k' pos = false) /\
     prev_search pos k fuel = dict_get k0 pos)
  \/ ((forall k', 1 <= k' <= k -> dict_mem k' pos = false) /\ prev_search pos k fuel = None).
Proof.
  induction fuel as [|f IH]; intros k Hk; simpl.
  - right. split; [intros; lia|reflexivity].
  - destruct (dict_mem k pos) eqn:Hm.
    + left. exists k. repeat split; try lia; auto.
    + destruct (IH (k - 1) ltac:(lia)) as [(k0 & Hr & Hm0 & Hgt & Hv)|(Hnone & Hv)].
      * left. exists k0. repeat split; try lia; auto.
        intros k' Hk'. destruct (Z.eq_dec k' k); [subst; exact Hm|apply Hgt; lia].
      * right. split; auto.
        intros k' Hk'. destruct (Z.eq_dec k' k); [subst; exact Hm|apply Hnone; lia].
Qed.

(** The previous position: the value under the greatest key below the
    edition, or [None] when there is no key below it. *)
Definition prev_key_value (pos : list (Z * option Z)) (n : Z) (prev : option Z) : Prop :=
  (exists k, 1 <= k < n /\ dict_mem k pos = true /\
     (forall k', k < k' < n -> dict_mem k' pos = false) /\ prev = dict_get k pos)
  \/ ((forall k, 1 <= k < n -> dict_mem k pos = false) /\ prev = None).

Lemma prev_position_spec pos n : prev_key_value pos n (prev_position pos n).
Proof.
  unfold prev_key_value, prev_position.
  destruct (Z.ltb 1 n) eqn:Hn.
  - apply Z.ltb_lt in Hn.
    destruct (prev_search_spec pos (Z.to_nat (n - 1)) (n - 1) ltac:(lia))
      as [(k0 & Hr & Hm & Hgt & Hv)|(Hnone & Hv)].
    + left. exists k0. repeat split; try lia; auto.
      intros k' Hk'. apply Hgt. lia.
    + right. split; auto. intros k Hk. apply Hnone. lia.
  - apply Z.ltb_ge in Hn. right. split; [intros; lia|reflexivity].
Qed.

Lemma prev_key_value_unique pos n p1 p2 :
  prev_key_value pos n p1 -> prev_key_value pos n p2 -> p1 = p2.
Proof.
  intros [(k1 & Hr1 & Hm1 & Hg1 & ->)|(Hn1 & ->)] [(k2 & Hr2 & Hm2 & Hg2 & ->)|(Hn2 & ->)].
  - destruct (Z.lt_total k1 k2) as [Hlt|[->|Hlt]]; [| reflexivity |].
    + rewrite (Hg1 k2) in Hm2 by lia. discriminate.
    + rewrite (Hg2 k1) in Hm1 by lia. discriminate.
  - rewrite Hn2 in Hm1 by lia. discriminate.
  - rewrite Hn1 in Hm2 by lia. discriminate.
  - reflexivity.
Qed.

(** C1 (as the code does it): an entry of [get_chart_data sgs n] is exactly
    a song of [sgs] with a non-absent position at [n], paired with the value
    stored under the greatest edition key [k] with [1 <= k < n] present in
    the song's positions mapping (a stored [None] included), or with [None]
    when no such key exists, in particular when [n <= 1]. *)
Theorem get_chart_data_prev_key (sgs : list song) (n : Z) (e : entry) :
  In e (get_chart_data sgs n) <->
  exists s, In s sgs /\ dict_get n (positions s) = Some (e_position e) /\
    e_title e = title s /\ e_total e = total_charts s /\
    prev_key_value (positions s) n (e_prev e).
Proof.
  unfold get_chart_data. rewrite sort_by_in.
  rewrite in_flat_map. split.
  - intros (s & Hs & He). exists s. split; [exact Hs|].
    unfold entry_of in He. destruct (dict_get n (positions s)) as [p|] eqn:Hp;
      [|destruct He].
    destruct He as [<-|[]]; simpl. repeat split; auto. apply prev_position_spec.
  - intros (s & Hs & Hp & Ht & Htot & Hprev). exists s. split; [exact Hs|].
    unfold entry_of. rewrite Hp. left.
    rewrite (prev_key_value_unique _ _ _ _ (prev_position_spec (positions s) n) Hprev).
    destruct e; simpl in *; subst; reflexivity.
Qed.

(** The previous position as C1 words it: the value of the most recent
    earlier edition with a non-absent entry, [None] when there is none. *)
Definition last_charted_before (pos : list (Z * option Z)) (n : Z) (prev : option Z) : Prop :=
  (exists k p, 1 <= k < n /\ dict_get k pos = Some p /\
     (forall k', k < k' < n -> dict_get k' pos = None) /\ prev = Some p)
  \/ ((forall k, 1 <= k < n -> dict_get k pos = None) /\ prev = None).

(** C1 counterexample: song A charts at 5 in edition 1, is absent ([--]) in
    edition 2 and charts at 4 in edition 3.  In [get_chart_data 3] its
    previous position is [None] (the stored value of key 2), not 5. *)
Lemma get_chart_data_prev_not_last_charted :
  let sg := songs (run_state (process_chart_data (init_processor "Chart.csv") (Some Samples.gap))) in
  ~ (forall s e, In s sg -> entry_of 3 s = Some e ->
       In e (get_chart_data sg 3) /\ last_charted_before (positions s) 3 (e_prev e)).
Proof.
  cbv zeta. intros H.
  destruct (H (mk_song "A" [(1, Some 5); (2, None); (3, Some 4)] 2)
              (mk_entry 4 None "A" 2)) as [_ [(k & p & Hk & Hp & Hgt & Hv)|(Hnone & _)]].
  - left. reflexivity.
  - reflexivity.
  - discriminate Hv.
  - specialize (Hnone 1 ltac:(lia)). discriminate Hnone.
Qed.

(* ------------------------------------------------------------------ *)
(** ** Movement classification *)

(** [s] is the first record of [sgs] whose title is [t]. *)
Definition first_record (sgs : list song) (t : string) (s : song) : Prop :=
  exists pre post, sgs = pre ++ s :: post /\ title s = t /\
    Forall (fun s' => title s' <> t) pre.

Lemma find_by_title_spec t sgs s :
  find_by_title t sgs = Some s <-> first_record sgs t s.
Proof.
  unfold find_by_title, first_record.
  induction sgs as [|s0 sgs IH]; simpl.
  - split; [discriminate|]. intros (pre & post & Heq & _). destruct pre; discriminate.
  - destruct (String.eqb (title s0) t) eqn:Ht.
    + apply String.eqb_eq in Ht. split.
      * intros [= <-]. exists [], sgs. repeat split; auto.
      * intros (pre & post & Heq & Hts & Hpre). destruct pre as [|s1 pre].
        -- injection Heq as ->. reflexivity.
        -- injection Heq as -> _. inversion Hpre. congruence.
    + apply String.eqb_neq in Ht. rewrite IH. split.
      * intros (pre & post & Heq & Hts & Hpre). exists (s0 :: pre), post.
        rewrite Heq. repeat split; auto.
      * intros (pre & post & Heq & Hts & Hpre). destruct pre as [|s1 pre].
        -- injection Heq as -> _. congruence.
        -- injection Heq as -> Heq. inversion Hpre; subst. exists pre, post. auto.
Qed.

Lemma charted_before_spec s n :
  charted_before s n = true <->
  exists k, 1 <= k < n /\ dict_get k (positions s) <> None.
Proof.
  unfold charted_before, py_range. rewrite existsb_exists. split.
  - intros (k & Hk & Hv). apply in_map_iff in Hk. destruct Hk as (i & <- & Hi).
    apply in_seq in Hi. exists (1 + Z.of_nat i). split; [lia|].
    destruct (dict_get _ _); [discriminate|discriminate].
  - intros (k & Hk & Hv). exists k. split.
    + apply in_map_iff. exists (Z.to_nat (k - 1)). split; [lia|].
      apply in_seq. lia.
    + destruct (dict_get k (positions s)); [reflexivity|congruence].
Qed.

(** The condition under which an entry with no previous position is a
    re-entry: the first record carrying the entry's title has a non-absent
    position in an edition [1 <= k < n]. *)
Definition reentry_condition (sgs : list song) (n : Z) (e : entry) : Prop :=
  1 < n /\ exists s, first_record sgs (e_title e) s /\
    exists k, 1 <= k < n /\ dict_get k (positions s) <> None.

(** C6 (as the code does it): the five labels are decided by the previous
    position and, when it is absent, by the earlier editions of the first
    record of the dataset whose title equals the entry's title (the entry's
    own record when no earlier record shares its title). *)
Theorem movement_type_spec (sgs : list song) (n : Z) (e : entry) :
  (movement_type sgs n e = Reentry <-> e_prev e = None /\ reentry_condition sgs n e) /\
  (movement_type sgs n e = New <-> e_prev e = None /\ ~ reentry_condition sgs n e) /\
  (movement_type sgs n e = Riser <-> exists p, e_prev e = Some p /\ p - e_position e >= 1) /\
  (movement_type sgs n e = Faller <-> exists p, e_prev e = Some p /\ p - e_position e <= -1) /\
  (movement_type sgs n e = Same <-> exists p, e_prev e = Some p /\ p - e_position e = 0).
Proof.
  assert (Hre : (if Z.ltb 1 n then
                   match find_by_title (e_title e) sgs with
                   | Some s => charted_before s n
                   | None => false
                   end else false) = true <-> reentry_condition sgs n e).
  { unfold reentry_condition. destruct (Z.ltb 1 n) eqn:Hn.
    - apply Z.ltb_lt in Hn.
      destruct (find_by_title (e_title e) sgs) as [s|] eqn:Hf.
      + rewrite charted_before_spec. split.
        * intros H. split; [exact Hn|]. exists s.
          split; [apply find_by_title_spec; exact Hf|exact H].
        * intros (_ & s' & Hs' & H). apply find_by_title_spec in Hs'.
          rewrite Hf in Hs'. injection Hs' as ->. exact H.
      + split; [discriminate|]. intros (_ & s' & Hs' & _).
        apply find_by_title_spec in Hs'. congruence.
    - apply Z.ltb_ge in Hn. split; [discriminate|]. intros [H _]. lia. }
  unfold movement_type.
  destruct (e_prev e) as [p|].
  - assert (Hnr : forall A B : Prop, A -> (A <-> B /\ False) -> False) by tauto.
    destruct (Z.leb 1 (p - e_position e)) eqn:H1;
      [|destruct (Z.leb (p - e_position e) (-1)) eqn:H2];
      rewrite ?Z.leb_le in *; rewrite ?Z.leb_gt in *;
      repeat split; intros; try discriminate; try reflexivity;
      repeat match goal with
             | H : _ /\ _ |- _ => destruct H
             | H : exists _, _ |- _ => destruct H
             | H : Some _ = Some _ |- _ => injection H as <-
             | H : None = Some _ |- _ => discriminate H
             | H : Some _ = None |- _ => discriminate H
             end;
      try lia; try (eexists; split; [reflexivity|lia]).
  - destruct (if Z.ltb 1 n then _ else false) eqn:Hc.
    + assert (Hc' : reentry_condition sgs n e) by (apply Hre; reflexivity).
      split; [split; [intros _; split; [reflexivity|exact Hc']|reflexivity]|].
      split; [split; [discriminate|intros [_ Hn]; contradiction]|].
      repeat split; try discriminate; intros (? & ? & _); discriminate.
    + assert (Hnc : ~ reentry_condition sgs n e) by (rewrite <- Hre; discriminate).
      split; [split; [discriminate|intros [_ Hr]; contradiction]|].
      split; [split; [intros _; split; [reflexivity|exact Hnc]|reflexivity]|].
      repeat split; try discriminate; intros (? & ? & _); discriminate.
Qed.

(** C6 counterexample: two rows titled [X].  The second record charts at 4
    in edition 1, is absent in edition 2 and charts at 7 in edition 3, so in
    [get_chart_data 3] its entry has no previous position although the song
    has an earlier non-absent position; the code looks up the first record
    titled [X], which never charted before edition 3, and labels it [New]. *)
Lemma movement_type_dup_title_new :
  let sg := songs (run_state (process_chart_data (init_processor "Chart.csv") (Some Samples.dup_title))) in
  ~ (forall s e, In s sg -> entry_of 3 s = Some e -> e_prev e = None ->
       (exists k, 1 <= k < 3 /\ dict_get k (positions s) <> None) ->
       movement_type sg 3 e = Reentry).
Proof.
  cbv zeta. intros H.
  assert (Hm := H (mk_song "X" [(1, Some 4); (2, None); (3, Some 7); (4, None)] 2)
                  (mk_entry 7 None "X" 2)).
  discriminate Hm.
  - right. left. reflexivity.
  - reflexivity.
  - reflexivity.
  - exists 1. split; [lia|discriminate].
Qed.

(* ------------------------------------------------------------------ *)
(** ** [find_song_column] *)

Lemma prefix_spec sub s :
  String.prefix sub s = true <-> exists post, s = String.append sub post.
Proof.
  revert s. induction sub as [|a sub IH]; intros s.
  - split; [intros _; exists s; reflexivity|intros _; destruct s; reflexivity].
  - destruct s as [|b s]; simpl.
    + split; [discriminate|]. intros [post H]. discriminate.
    + destruct (ascii_dec a b) as [->|Hne].
      * rewrite IH. split; intros [post H]; exists post; [rewrite H|injection H]; auto.
      * split; [discriminate|]. intros [post H]. injection H. congruence.
Qed.

Lemma contains_spec sub s :
  PyStr.contains sub s = true <->
  exists pre post, s = String.append pre (String.append sub post).
Proof.
  induction s as [|c s IH]; cbn [PyStr.contains]; rewrite orb_true_iff, prefix_spec.
  - split.
    + intros [[post H]|H]; [|discriminate]. exists EmptyString, post. exact H.
    + intros (pre & post & H). left. destruct pre; [exists post; exact H|discriminate].
  - rewrite IH. split.
    + intros [[post H]|(pre & post & H)].
      * exists EmptyString, post. exact H.
      * exists (String c pre), post. rewrite H. reflexivity.
    + intros (pre & post & H). destruct pre as [|c' pre].
      * left. exists post. exact H.
      * right. injection H as -> H. exists pre, post. exact H.
Qed.

(** [c] is the first element of [l] satisfying [P]. *)
Definition first_such {A} (P : A -> Prop) (l : list A) (c : A) : Prop :=
  exists pre post, l = pre ++ c :: post /\ P c /\ Forall (fun c' => ~ P c') pre.

Lemma find_first_such {A} (f : A -> bool) (P : A -> Prop) (l : list A) (c : A) :
  (forall x, f x = true <-> P x) ->
  (find f l = Some c <-> first_such P l c).
Proof.
  intros Hf. unfold first_such. induction l as [|x l IH]; simpl.
  - split; [discriminate|]. intros (pre & post & H & _). destruct pre; discriminate.
  - destruct (f x) eqn:Hx.
    + split.
      * intros [= <-]. exists [], l. repeat split; auto. apply Hf. exact Hx.
      * intros (pre & post & H & Hc & Hpre). destruct pre as [|y pre].
        -- injection H as <-. reflexivity.
        -- injection H as <- _. inversion Hpre. exfalso. apply H1, Hf, Hx.
    + rewrite IH. split.
      * intros (pre & post & H & Hc & Hpre). exists (x :: pre), post.
        rewrite H. repeat split; auto. constructor; [|exact Hpre].
        rewrite <- Hf. congruence.
      * intros (pre & post & H & Hc & Hpre). destruct pre as [|y pre].
        -- injection H as -> _. apply Hf in Hc. congruence.
        -- injection H as -> H. inversion Hpre; subst. exists pre, post. auto.
Qed.

Lemma find_none_forall {A} (f : A -> bool) (P : A -> Prop) (l : list A) :
  (forall x, f x = true <-> P x) ->
  (find f l = None <-> Forall (fun c => ~ P c) l).
Proof.
  intros Hf. induction l as [|x l IH]; simpl; [split; auto|].
  destruct (f x) eqn:Hx.
  - split; [discriminate|]. intros H. inversion H. exfalso. apply H2, Hf, Hx.
  - rewrite IH. split.
    + intros H. constructor; [rewrite <- Hf; congruence|exact H].
    + intros H. inversion H. exact H3.
Qed.

(** The trimmed header is one of the nine listed spellings. *)
Definition listed_header (h : header) : Prop :=
  In (PyStr.strip (header_str h)) possible_song_columns.

(** The trimmed, lower-cased header contains [song], [title] or [track]. *)
Definition partial_header (h : header) : Prop :=
  exists w pre post, In w ["song"; "title"; "track"] /\
    PyStr.lower (PyStr.strip (header_str h)) = String.append pre (String.append w post).

Lemma exact_song_header_spec h : exact_song_header h = true <-> listed_header h.
Proof.
  unfold exact_song_header, listed_header. rewrite existsb_exists. split.
  - intros (x & Hx & He). apply String.eqb_eq in He. subst. exact Hx.
  - intros H. exists (PyStr.strip (header_str h)). split; [exact H|apply String.eqb_refl].
Qed.

Lemma partial_song_header_spec h : partial_song_header h = true <-> partial_header h.
Proof.
  unfold partial_song_header, partial_header.
  rewrite !orb_true_iff, !contains_spec. split.
  - intros [[(pre & post & H)|(pre & post & H)]|(pre & post & H)];
      eexists; exists pre, post; split; eauto; simpl; auto.
  - intros (w & pre & post & [<-|[<-|[<-|[]]]] & H); eauto 6.
Qed.

(** C4 (as the code does it): the song column is the first column whose
    whitespace-trimmed header is one of Song, song, SONG, Title, title,
    TITLE, Track, track, TRACK; failing that, the first column whose trimmed,
    lower-cased header contains song, title or track; when there is none,
    a table that was read makes ingestion fail with the song-column error
    and leaves the processor unchanged. *)
Theorem find_song_column_spec (st : processor) (df : table) (c : header) :
  (find_song_column (columns df) = Some c <->
     first_such listed_header (columns df) c \/
     (Forall (fun c' => ~ listed_header c') (columns df) /\
      first_such partial_header (columns df) c)) /\
  (find_song_column (columns df) = None <->
     Forall (fun c' => ~ listed_header c' /\ ~ partial_header c') (columns df)) /\
  (find_song_column (columns df) = None ->
   read_data_file (data_path st) (Some df) = Ok df ->
   process_chart_data st (Some df) = (st, (false, MsgNoSongColumn), [])).
Proof.
  pose proof (find_first_such _ _ (columns df) c exact_song_header_spec) as Fe.
  pose proof (find_first_such _ _ (columns df) c partial_song_header_spec) as Fp.
  pose proof (find_none_forall _ _ (columns df) exact_song_header_spec) as Ne.
  pose proof (find_none_forall _ _ (columns df) partial_song_header_spec) as Np.
  unfold find_song_column. split; [|split].
  - destruct (find exact_song_header (columns df)) as [c0|] eqn:He.
    + rewrite <- Fe. split; [intros H; left; exact H|].
      intros [H|[Hall _]]; [exact H|]. apply Ne in Hall. discriminate.
    + rewrite <- Fp. split; [intros H; right; split; [apply Ne; reflexivity|exact H]|].
      intros [H|[_ H]]; [|exact H]. apply Fe in H. discriminate.
  - destruct (find exact_song_header (columns df)) as [c0|] eqn:He.
    + split; [discriminate|]. intros H. apply (proj2 Ne).
      eapply Forall_impl; [|exact H]. intros a [Ha _]. exact Ha.
    + rewrite Np. split.
      * intros H. assert (Hall := proj1 Ne eq_refl).
        apply Forall_forall. intros a Ha.
        split; [apply (proj1 (Forall_forall _ _) Hall)|apply (proj1 (Forall_forall _ _) H)];
          exact Ha.
      * intros H. eapply Forall_impl; [|exact H]. intros a [_ Ha]. exact Ha.
  - intros Hn Hr. unfold process_chart_data. rewrite Hr.
    unfold find_song_column. rewrite Hn. reflexivity.
Qed.

Lemma find_song_column_spec_witness :
  find_song_column (columns (mk_table [HStr "1"; HStr "2"] [])) = None /\
  process_chart_data (init_processor "Chart.csv") (Some (mk_table [HStr "1"; HStr "2"] []))
  = (init_processor "Chart.csv", (false, MsgNoSongColumn), []).
Proof.
  split; [reflexivity|].
  apply (find_song_column_spec (init_processor "Chart.csv") (mk_table [HStr "1"; HStr "2"] [])
           (HStr "1")); reflexivity.
Defined.

(** The song column as C4 words it: the first header that is, ignoring
    case, exactly song, title or track; else the first containing one of
    them, ignoring case. *)
Definition ci_exact_header (h : header) : bool :=
  existsb (String.eqb (PyStr.lower (header_str h))) ["song"; "title"; "track"].

Definition ci_partial_header (h : header) : bool :=
  let s := PyStr.lower (header_str h) in
  PyStr.contains "song" s || PyStr.contains "title" s || PyStr.contains "track" s.

Definition claimed_song_column (cols : list header) : option header :=
  match find ci_exact_header cols with
  | Some c => Some c
  | None => find ci_partial_header cols
  end.

(** C4 counterexample: with headers [Song Title], [sOng], [1] the code picks
    [Song Title] (no header is one of the nine listed spellings, so the
    substring pass runs), while [sOng] is case-insensitively exactly song. *)
Lemma find_song_column_case_mismatch :
  find_song_column Samples.song_headers = Some (HStr "Song Title") /\
  claimed_song_column Samples.song_headers = Some (HStr "sOng") /\
  find_song_column Samples.song_headers <> claimed_song_column Samples.song_headers.
Proof. split; [reflexivity|split; [reflexivity|discriminate]]. Qed.

(* ------------------------------------------------------------------ *)
(** ** [find_chart_columns] *)

(** The edition number a header stands for, in the words of the code's
    branches: a trimmed [str()] that is a digit string of decimal digits
    gives its value; otherwise an [int] header gives itself and a [float]
    header its truncation; the number must lie in [1, 99]. *)
Definition qualifying_number (h : header) (n : Z) : Prop :=
  1 <= n <= 99 /\
  let s := PyStr.strip (header_str h) in
  ((PyStr.isdigit s = true /\ PyStr.all Chars.is_decimal s = true /\
    n = PyStr.digits_value_acc 0 s)
   \/ (PyStr.isdigit s = false /\
       (h = HInt n \/ exists r f, h = HFloat r /\ PyFloat.py_float r = Some f /\
                                  PyFloat.py_int f = Ok n))).

Lemma all_decimal_digit s :
  PyStr.all Chars.is_decimal s = true -> PyStr.all Chars.is_digit_char s = true.
Proof.
  induction s as [|c s IH]; simpl; auto.
  rewrite !andb_true_iff. unfold Chars.is_digit_char. intros [-> H]. auto.
Qed.

Lemma chart_num_of_spec h n :
  chart_num_of h = Ok (Some n) /\ 1 <= n <= 99 <-> qualifying_number h n.
Proof.
  unfold chart_num_of, qualifying_number.
  destruct (PyStr.isdigit (PyStr.strip (header_str h))) eqn:Hd.
  - unfold PyStr.int_of_digits.
    destruct (PyStr.all Chars.is_decimal _) eqn:Ha.
    + split.
      * intros [[= <-] Hr]. split; [exact Hr|left; auto].
      * intros [Hr [(_ & _ & ->)|(Hf & _)]]; [split; auto|discriminate].
    + split; [intros [H _]; discriminate|].
      intros [_ [(_ & H & _)|(Hf & _)]]; discriminate.
  - destruct h as [s|z|r].
    + destruct (negb _ && _) eqn:Hre.
      * exfalso. apply andb_true_iff in Hre. destruct Hre as [Hne Ha].
        unfold PyStr.isdigit in Hd. rewrite Hne, all_decimal_digit in Hd by exact Ha.
        discriminate.
      * split; [intros [H _]; discriminate|].
        intros [_ [(H & _)|(_ & [H|(r & f & H & _)])]]; discriminate.
    + split.
      * intros [[= <-] Hr]. split; [exact Hr|right; split; auto].
      * intros [Hr [(H & _)|(_ & [[= <-]|(r & f & H & _)])]];
          [discriminate|split; auto|discriminate].
    + split.
      * intros [H Hr]. split; [exact Hr|right; split; [reflexivity|right]].
        destruct (PyFloat.py_float r) as [f|] eqn:Hf; [|discriminate].
        exists r, f. split; [reflexivity|split; [exact Hf|]].
        destruct (PyFloat.py_int f) as [m|[]]; congruence.
      * intros [Hr [(H & _)|(_ & [H|(r' & f & [= <-] & Hf & Hi)])]];
          [discriminate|discriminate|].
        rewrite Hf, Hi. split; auto.
Qed.

Lemma chart_num_of_raise h e : chart_num_of h = Raise e -> e = OverflowError.
Proof.
  unfold chart_num_of.
  destruct (PyStr.isdigit _); [destruct (PyStr.int_of_digits _); discriminate|].
  destruct h as [s|z|r]; [destruct (negb _ && _); discriminate|discriminate|].
  destruct (PyFloat.py_float r) as [f|]; [|discriminate].
  destruct f; simpl; [discriminate|congruence|discriminate].
Qed.

Lemma collect_chart_columns_in cols : forall acc out,
  collect_chart_columns cols acc = Ok out ->
  forall h n, In (h, n) out <-> In (h, n) acc \/ (In h cols /\ qualifying_number h n).
Proof.
  induction cols as [|col rest IH]; intros acc out Hc h n; simpl in Hc.
  - injection Hc as <-. simpl. tauto.
  - destruct (chart_num_of col) as [[m|]|e] eqn:Hn; [| |discriminate].
    + simpl.
      destruct (Z.leb 1 m && Z.leb m 99) eqn:Hr.
      * rewrite (IH _ _ Hc), in_app_iff. simpl.
        apply andb_true_iff in Hr. rewrite !Z.leb_le in Hr.
        split.
        -- intros [[H|[[= <- <-]|[]]]|[Hi Hq]]; auto.
           right; split; [left; reflexivity|rewrite <- chart_num_of_spec; auto].
        -- intros [H|[[<-|Hi] Hq]]; auto.
           rewrite <- chart_num_of_spec in Hq. destruct Hq as [Hq _].
           rewrite Hn in Hq. injection Hq as ->. auto.
      * rewrite (IH _ _ Hc). simpl. split.
        -- intros [H|[Hi Hq]]; auto.
        -- intros [H|[[<-|Hi] Hq]]; auto. exfalso.
           rewrite <- chart_num_of_spec in Hq. destruct Hq as [Hq Hb].
           rewrite Hn in Hq. injection Hq as ->.
           apply andb_false_iff in Hr. rewrite !Z.leb_gt in Hr. lia.
    + rewrite (IH _ _ Hc). simpl. split.
      * intros [H|[Hi Hq]]; auto.
      * intros [H|[[<-|Hi] Hq]]; auto. exfalso.
        rewrite <- chart_num_of_spec in Hq. destruct Hq as [Hq _].
        rewrite Hn in Hq. discriminate.
Qed.

Definition le_by {A} (key : A -> Z) (a b : A) : Prop := key a <= key b.

Section SortedBy.
Context {A : Type} (key : A -> Z).

Lemma insert_by_hd y x l :
  key y <= key x -> HdRel (le_by key) y l -> HdRel (le_by key) y (insert_by key x l).
Proof.
  intros Hyx Hl. destruct l as [|z l]; simpl; [constructor; exact Hyx|].
  destruct (Z.ltb (key x) (key z)); constructor; [exact Hyx|inversion Hl; assumption].
Qed.

Lemma insert_by_sorted x l : Sorted (le_by key) l -> Sorted (le_by key) (insert_by key x l).
Proof.
  induction l as [|y l IH]; intros Hs; simpl; [constructor; constructor|].
  destruct (Z.ltb (key x) (key y)) eqn:H.
  - constructor; [exact Hs|constructor]. unfold le_by. apply Z.ltb_lt in H. lia.
  - apply Z.ltb_ge in H. inversion Hs; subst.
    constructor; [apply IH; assumption|apply insert_by_hd; assumption].
Qed.

Lemma sort_by_sorted l : Sorted (le_by key) (sort_by key l).
Proof.
  unfold sort_by. assert (H : Sorted (le_by key) (@nil A)) by constructor.
  revert H. generalize (@nil A). induction l as [|x l IH]; intros acc Hacc; simpl; auto.
  apply IH, insert_by_sorted, Hacc.
Qed.

End SortedBy.

Lemma collect_chart_columns_inf r b cols : forall acc,
  In (HFloat r) cols -> PyFloat.py_float r = Some (FInf b) ->
  PyStr.isdigit (PyStr.strip r) = false ->
  collect_chart_columns cols acc = Raise OverflowError.
Proof.
  induction cols as [|col rest IH]; intros acc Hin Hf Hd; [destruct Hin|].
  cbn [collect_chart_columns]. destruct Hin as [->|Hin].
  - unfold chart_num_of; cbn [header_str]. rewrite Hd, Hf. reflexivity.
  - destruct (chart_num_of col) as [[m|]|e] eqn:Hn.
    + destruct (_ && _); apply IH; assumption.
    + apply IH; assumption.
    + rewrite (chart_num_of_raise _ _ Hn). reflexivity.
Qed.

(** C5 (as the code does it): when the header scan succeeds, a column is
    returned with number [n] exactly when [qualifying_number] holds: its
    whitespace-trimmed [str()] is a digit string of decimal digits with value
    [n], or, when it is not a digit string, it is an [int] header [n] or a
    [float] header truncating to [n]; and [1 <= n <= 99].  The result is
    sorted ascending by number, and an empty result makes ingestion fail
    with the no-chart-columns message.  A float header that is infinite
    makes the scan raise [OverflowError] instead. *)
Theorem find_chart_columns_spec (st : processor) (df : table) :
  (forall out, find_chart_columns (columns df) = Ok out ->
     (forall h n, In (h, n) out <-> In h (columns df) /\ qualifying_number h n) /\
     Sorted (le_by snd) out /\
     (out = [] -> read_data_file (data_path st) (Some df) = Ok df ->
      find_song_column (columns df) <> None ->
      process_chart_data st (Some df) = (st, (false, MsgNoChartColumns), []))) /\
  (forall r b, In (HFloat r) (columns df) -> PyFloat.py_float r = Some (FInf b) ->
     PyStr.isdigit (PyStr.strip r) = false ->
     find_chart_columns (columns df) = Raise OverflowError).
Proof.
  split.
  - intros out Hout. unfold find_chart_columns in Hout.
    destruct (collect_chart_columns (columns df) []) as [cc|e] eqn:Hc; [|discriminate].
    injection Hout as <-. split; [|split].
    + intros h n. rewrite sort_by_in, (collect_chart_columns_in _ _ _ Hc). simpl. tauto.
    + apply sort_by_sorted.
    + intros Hnil Hr Hs. unfold process_chart_data. rewrite Hr.
      destruct (find_song_column (columns df)); [|congruence].
      unfold find_chart_columns. rewrite Hc, Hnil. reflexivity.
  - intros r b Hin Hf Hd. unfold find_chart_columns.
    rewrite (collect_chart_columns_inf r b _ [] Hin Hf Hd). reflexivity.
Qed.

Lemma find_chart_columns_spec_witness :
  find_chart_columns [HStr "Song"; HStr "2"; HStr "1"] = Ok [(HStr "1", 1); (HStr "2", 2)] /\
  Sorted (le_by snd) [(HStr "1", 1); (HStr "2", 2)].
Proof.
  split; [reflexivity|].
  apply (proj1 (find_chart_columns_spec (init_processor "Chart.csv")
                  (mk_table [HStr "Song"; HStr "2"; HStr "1"] []))
           [(HStr "1", 1); (HStr "2", 2)] eq_refl).
Defined.

(** Edition headers as C5 words them: a string header must itself be a
    digit sequence, a numeric header must be an integer. *)
Definition float_is_integer (f : pyfloat) (n : Z) : Prop :=
  match f with
  | FFin m e => if Z.leb 0 e then m * 10 ^ e = n else m = n * 10 ^ (- e)
  | _ => False
  end.

Definition claimed_edition_header (h : header) (n : Z) : Prop :=
  1 <= n <= 99 /\
  match h with
  | HStr s => s <> EmptyString /\ PyStr.all Chars.is_decimal s = true /\
              n = PyStr.digits_value_acc 0 s
  | HInt z => n = z
  | HFloat r => exists f, PyFloat.py_float r = Some f /\ float_is_integer f n
  end.

(** C5 counterexample: the string header [" 3"] (a space before the digit)
    and the float header [2.5] both qualify, as editions 3 and 2. *)
Lemma find_chart_columns_padded_and_fractional :
  find_chart_columns Samples.edition_headers = Ok [(HFloat "2.5", 2); (HStr " 3", 3)] /\
  ~ claimed_edition_header (HStr " 3") 3 /\
  ~ claimed_edition_header (HFloat "2.5") 2.
Proof.
  split; [reflexivity|split].
  - intros (_ & _ & H & _). discriminate H.
  - intros (_ & f & Hf & Hi). simpl in Hf. injection Hf as <-. simpl in Hi. discriminate Hi.
Qed.

(* ------------------------------------------------------------------ *)
(** ** The records ingestion adds *)

Lemma fill_positions_ws hs row t cols : forall pos ws,
  fill_positions hs row t cols pos ws =
  match fill_positions hs row t cols pos [] with
  | Ok (p, w) => Ok (p, ws ++ w)
  | Raise e => Raise e
  end.
Proof.
  induction cols as [|[col n] rest IH]; intros pos ws; simpl.
  - rewrite app_nil_r. reflexivity.
  - destruct (read_position _); [apply IH| |reflexivity].
    rewrite IH, (IH _ [(t, n)]).
    destruct (fill_positions hs row t rest _ []) as [[p w]|e]; [|reflexivity].
    rewrite app_assoc. reflexivity.
Qed.

(** A row is kept when its normalized title is non-empty and its positions
    mapping has a non-absent value. *)
Definition kept_row (hs : list header) (sc : header) (cols : list (header * Z))
  (row : list cell) : bool :=
  let t := title_of_cell (row_get hs row sc) in
  negb (String.eqb t EmptyString) &&
  match fill_positions hs row t cols [] [] with
  | Ok (pos, _) => Z.ltb 0 (count_charted pos)
  | Raise _ => false
  end.

Lemma process_rows_titles hs sc cols rws : forall acc p sk ws sgs o,
  process_rows hs sc cols rws acc p sk ws = (sgs, Ok o) ->
  List.map title sgs =
  List.map title acc ++
  List.map (fun row => title_of_cell (row_get hs row sc)) (List.filter (kept_row hs sc cols) rws).
Proof.
  induction rws as [|row rest IH]; intros acc p sk ws sgs o H; simpl in H |- *.
  - injection H as <- _. rewrite app_nil_r. reflexivity.
  - unfold kept_row at 1.
    destruct (String.eqb (title_of_cell (row_get hs row sc)) EmptyString) eqn:Ht;
      simpl; [eapply IH; exact H|].
    rewrite fill_positions_ws in H.
    destruct (fill_positions hs row _ cols [] []) as [[pos w]|e]; [|discriminate].
    destruct (Z.ltb 0 (count_charted pos)); simpl.
    + rewrite (IH _ _ _ _ _ _ H), map_app, <- app_assoc. reflexivity.
    + eapply IH. exact H.
Qed.

(** C9 (as the code does it): ingestion does not deduplicate titles.  The
    records a successful run adds are, in row order, one per row whose
    normalized title is non-empty and whose positions mapping has a
    non-absent value, so rows with equal or case-insensitively equal titles
    each give a record of their own. *)
Theorem process_chart_data_titles (st : processor) (df : table) :
  run_ok (process_chart_data st (Some df)) = true ->
  exists sc cols,
    find_song_column (columns df) = Some sc /\ find_chart_columns (columns df) = Ok cols /\
    List.map title (songs (run_state (process_chart_data st (Some df)))) =
    List.map title (songs st) ++
    List.map (fun row => title_of_cell (row_get (columns df) row sc))
      (List.filter (kept_row (columns df) sc cols) (rows df)).
Proof.
  intros Hok.
  destruct (process_chart_data_success _ _ Hok)
    as (df' & sc & cols & p & sk & ws & sgs & Hr & Hs & Hc & Hne & E & Hst).
  assert (df' = df) as ->.
  { unfold read_data_file in Hr. destruct (_ || _); congruence. }
  exists sc, cols. repeat split; auto.
  rewrite Hst. simpl. eapply process_rows_titles. exact E.
Qed.

Lemma process_chart_data_titles_witness :
  run_ok (process_chart_data (init_processor "Chart.csv") (Some Samples.case_dup)) = true /\
  exists sc cols,
    find_song_column (columns Samples.case_dup) = Some sc /\
    find_chart_columns (columns Samples.case_dup) = Ok cols /\
    List.map title (songs (run_state (process_chart_data (init_processor "Chart.csv")
                                        (Some Samples.case_dup)))) =
    List.map (fun row => title_of_cell (row_get (columns Samples.case_dup) row sc))
      (List.filter (kept_row (columns Samples.case_dup) sc cols) (rows Samples.case_dup)).
Proof.
  split; [reflexivity|].
  apply (process_chart_data_titles (init_processor "Chart.csv") Samples.case_dup).
  reflexivity.
Defined.

(** C9 counterexample: rows [Hello] and [hello] both become records, whose
    titles are equal ignoring case. *)
Lemma process_chart_data_case_duplicate_titles :
  let sg := songs (run_state (process_chart_data (init_processor "Chart.csv") (Some Samples.case_dup))) in
  List.map title sg = ["Hello"; "hello"] /\
  ~ NoDup (List.map (fun s => PyStr.lower (title s)) sg).
Proof.
  cbv zeta. split; [reflexivity|].
  intros H. inversion H as [|x l Hx Hl]. apply Hx. left. reflexivity.
Qed.

(* ------------------------------------------------------------------ *)
(** ** The key set of [positions] *)

Lemma dict_set_keys k v d k' :
  In k' (List.map fst (dict_set k v d)) <-> k = k' \/ In k' (List.map fst d).
Proof.
  induction d as [|[k0 v0] d IH]; simpl; [tauto|].
  destruct (Z.eqb k k0) eqn:H; simpl.
  - apply Z.eqb_eq in H. subst. tauto.
  - rewrite IH. tauto.
Qed.

Lemma dict_set_nodup k v d :
  NoDup (List.map fst d) -> NoDup (List.map fst (dict_set k v d)).
Proof.
  induction d as [|[k0 v0] d IH]; simpl; intros Hd.
  - constructor; [intros []|constructor].
  - inversion Hd as [|x l Hx Hl]; subst.
    destruct (Z.eqb k k0) eqn:H; simpl.
    + apply Z.eqb_eq in H. subst. constructor; assumption.
    + constructor; [|apply IH; assumption].
      rewrite dict_set_keys. intros [Heq|Hin]; [|contradiction].
      subst. rewrite Z.eqb_refl in H. discriminate.
Qed.

Lemma fill_positions_keys hs row t cols : forall pos ws pos' ws',
  fill_positions hs row t cols pos ws = Ok (pos', ws') ->
  (forall k, In k (List.map fst pos') <-> In k (List.map fst pos) \/ In k (List.map snd cols)) /\
  (NoDup (List.map fst pos) -> NoDup (List.map fst pos')).
Proof.
  induction cols as [|[col n] rest IH]; intros pos ws pos' ws' H; simpl in H |- *.
  - injection H as <- _. split; [tauto|auto].
  - destruct (read_position _) as [v| |e]; [| |discriminate];
      destruct (IH _ _ _ _ H) as [Hk Hn]; split;
      [intros k; rewrite Hk, dict_set_keys; tauto
      |intros Hd; apply Hn, dict_set_nodup, Hd
      |intros k; rewrite Hk, dict_set_keys; tauto
      |intros Hd; apply Hn, dict_set_nodup, Hd].
Qed.

Lemma process_rows_added hs sc cols rws : forall acc p sk ws sgs o,
  process_rows hs sc cols rws acc p sk ws = (sgs, o) ->
  exists added, sgs = acc ++ added /\
    forall s, In s added ->
      exists row ws0 ws1, fill_positions hs row (title s) cols [] ws0 = Ok (positions s, ws1).
Proof.
  induction rws as [|row rest IH]; intros acc p sk ws sgs o H; simpl in H.
  - injection H as <- _. exists []. split; [rewrite app_nil_r; reflexivity|intros s []].
  - destruct (String.eqb _ EmptyString); [eapply IH; exact H|].
    destruct (fill_positions hs row _ cols [] ws) as [[pos w]|e] eqn:Hf.
    + destruct (Z.ltb 0 (count_charted pos)); [|eapply IH; exact H].
      destruct (IH _ _ _ _ _ _ H) as (added & -> & Hadd).
      exists (mk_song (title_of_cell (row_get hs row sc)) pos (count_charted pos) :: added).
      split; [rewrite <- app_assoc; reflexivity|].
      intros s [<-|Hs]; [exists row, ws, w; exact Hf|apply Hadd, Hs].
    + injection H as <- _. exists []. split; [rewrite app_nil_r; reflexivity|intros s []].
Qed.

(** C10 (as the code does it): after a successful run, every record that
    run adds has as the keys of its positions mapping exactly the set of
    discovered edition numbers, each once; columns whose headers parse to
    the same number share one key.  The keys do not depend on the cells, so
    key membership never says that the song charted. *)
Theorem process_chart_data_position_keys (st : processor) (df : table) :
  run_ok (process_chart_data st (Some df)) = true ->
  exists cols added,
    find_chart_columns (columns df) = Ok cols /\
    songs (run_state (process_chart_data st (Some df))) = songs st ++ added /\
    forall s, In s added ->
      (forall k, In k (List.map fst (positions s)) <-> In k (List.map snd cols)) /\
      NoDup (List.map fst (positions s)).
Proof.
  intros Hok.
  destruct (process_chart_data_success _ _ Hok)
    as (df' & sc & cols & p & sk & ws & sgs & Hr & Hs & Hc & Hne & E & Hst).
  assert (df' = df) as ->.
  { unfold read_data_file in Hr. destruct (_ || _); congruence. }
  destruct (process_rows_added _ _ _ _ _ _ _ _ _ _ E) as (added & -> & Hadd).
  exists cols, added. rewrite Hst. repeat split; auto.
  - intros Hk. destruct (Hadd s H) as (row & ws0 & ws1 & Hf).
    apply (proj1 (fill_positions_keys _ _ _ _ _ _ _ _ Hf) k) in Hk. simpl in Hk. tauto.
  - intros Hk. destruct (Hadd s H) as (row & ws0 & ws1 & Hf).
    apply (proj1 (fill_positions_keys _ _ _ _ _ _ _ _ Hf) k). simpl. tauto.
  - destruct (Hadd s H) as (row & ws0 & ws1 & Hf).
    apply (proj2 (fill_positions_keys _ _ _ _ _ _ _ _ Hf)). constructor.
Qed.

Lemma process_chart_data_position_keys_witness :
  run_ok (process_chart_data (init_processor "Chart.csv") (Some Samples.two_songs)) = true /\
  exists cols added,
    find_chart_columns (columns Samples.two_songs) = Ok cols /\
    songs (run_state (process_chart_data (init_processor "Chart.csv") (Some Samples.two_songs)))
      = [] ++ added /\
    forall s, In s added ->
      (forall k, In k (List.map fst (positions s)) <-> In k (List.map snd cols)) /\
      NoDup (List.map fst (positions s)).
Proof.
  split; [reflexivity|].
  apply (process_chart_data_position_keys (init_processor "Chart.csv") Samples.two_songs).
  reflexivity.
Defined.

(** C10 counterexample: the headers [1] and [01] are two qualifying chart
    columns that both parse to edition 1, so the record has one key where
    there are two qualifying columns. *)
Lemma process_chart_data_shared_edition_key :
  find_chart_columns (columns Samples.dup_edition) = Ok [(HStr "1", 1); (HStr "01", 1)] /\
  songs (run_state (process_chart_data (init_processor "Chart.csv") (Some Samples.dup_edition)))
    = [mk_song "A" [(1, Some 6)] 1] /\
  ~ (forall s, In s (songs (run_state (process_chart_data (init_processor "Chart.csv")
                                          (Some Samples.dup_edition)))) ->
       List.length (positions s) = List.length [(HStr "1", 1); (HStr "01", 1)]).
Proof.
  split; [reflexivity|split; [reflexivity|]].
  intros H. specialize (H (mk_song "A" [(1, Some 6)] 1) (or_introl eq_refl)).
  discriminate H.
Qed.

(* ================================================================== *)
(** * Further properties of the code *)

Example two_songs_all_view :
  let st := run_state (process_chart_data (init_processor "Chart.csv") (Some Samples.two_songs)) in
  List.map (fun r => (row_position r, row_title r, row_total_points r, row_top_spot r))
    (all_songs_view st)
  = [(1, "Song A", 194, Some 3); (2, "Song B", 100, Some 1)].
Proof. reflexivity. Qed.

Example two_songs_chart_response :
  let st := run_state (process_chart_data (init_processor "Chart.csv") (Some Samples.two_songs)) in
  App.get_chart true st 2
  = App.ChartBody 2
      [mk_row 1 None "Song B" 1 New 0 100 1 (Some 1);
       mk_row 3 (Some 5) "Song A" 2 Riser 2 194 0 (Some 3)]
      (mk_counts 1 1 0 0 0) /\
  App.get_chart true st 3 = App.ChartError 400 "Invalid chart number".
Proof. split; reflexivity. Qed.

(* ------------------------------------------------------------------ *)
(** ** Lemmas on the string operations *)

Lemma lower_char_idem c : Chars.lower (Chars.lower c) = Chars.lower c.
Proof. destruct c as [[] [] [] [] [] [] [] []]; reflexivity. Qed.

Lemma lower_char_space c : Chars.is_space (Chars.lower c) = Chars.is_space c.
Proof. destruct c as [[] [] [] [] [] [] [] []]; reflexivity. Qed.

Lemma lower_idem s : PyStr.lower (PyStr.lower s) = PyStr.lower s.
Proof.
  unfold PyStr.lower. induction s as [|c s IH]; simpl; [reflexivity|].
  rewrite lower_char_idem, IH. reflexivity.
Qed.

Lemma map_empty f s : PyStr.map f s = EmptyString <-> s = EmptyString.
Proof. destruct s; simpl; split; congruence. Qed.

Lemma lower_lstrip s : PyStr.lower (PyStr.lstrip s) = PyStr.lstrip (PyStr.lower s).
Proof.
  unfold PyStr.lower. induction s as [|c s IH]; simpl; [reflexivity|].
  rewrite lower_char_space. destruct (Chars.is_space c); [exact IH|reflexivity].
Qed.

Lemma lower_rstrip s : PyStr.lower (PyStr.rstrip s) = PyStr.rstrip (PyStr.lower s).
Proof.
  unfold PyStr.lower. induction s as [|c s IH]; simpl; [reflexivity|].
  rewrite <- IH, lower_char_space.
  destruct (Chars.is_space c); simpl; [|reflexivity].
  destruct (String.eqb (PyStr.rstrip s) EmptyString) eqn:E.
  - apply String.eqb_eq in E. rewrite E. reflexivity.
  - apply String.eqb_neq in E.
    destruct (String.eqb (PyStr.map Chars.lower (PyStr.rstrip s)) EmptyString) eqn:E'.
    + apply String.eqb_eq, map_empty in E'. contradiction.
    + reflexivity.
Qed.

Lemma lower_strip s : PyStr.lower (PyStr.strip s) = PyStr.strip (PyStr.lower s).
Proof. unfold PyStr.strip. rewrite lower_rstrip, lower_lstrip. reflexivity. Qed.

Lemma rstrip_idem s : PyStr.rstrip (PyStr.rstrip s) = PyStr.rstrip s.
Proof.
  induction s as [|c s IH]; simpl; [reflexivity|].
  destruct (Chars.is_space c && String.eqb (PyStr.rstrip s) EmptyString) eqn:E;
    [reflexivity|].
  simpl. rewrite IH, E. reflexivity.
Qed.

Lemma lstrip_head s :
  PyStr.lstrip s = EmptyString \/
  exists c r, PyStr.lstrip s = String c r /\ Chars.is_space c = false.
Proof.
  induction s as [|c s IH]; simpl; [left; reflexivity|].
  destruct (Chars.is_space c) eqn:E; [exact IH|right; exists c, s; auto].
Qed.

Lemma strip_idem s : PyStr.strip (PyStr.strip s) = PyStr.strip s.
Proof.
  unfold PyStr.strip.
  destruct (lstrip_head s) as [->|(c & r & -> & Hc)]; [reflexivity|].
  assert (E : forall u, PyStr.rstrip (String c u) = String c (PyStr.rstrip u))
    by (intros u; simpl; rewrite Hc; reflexivity).
  rewrite E. cbn [PyStr.lstrip]. rewrite Hc, E, rstrip_idem. reflexivity.
Qed.

Lemma all_impl (p q : ascii -> bool) s :
  (forall c, p c = true -> q c = true) -> PyStr.all p s = true -> PyStr.all q s = true.
Proof.
  intros Hpq. induction s as [|c s IH]; simpl; [reflexivity|].
  intros H. apply andb_prop in H as [H1 H2]. rewrite (Hpq c H1), (IH H2). reflexivity.
Qed.

Lemma all_filter (p q : ascii -> bool) s :
  PyStr.all p s = true -> PyStr.all (fun c => p c && q c) (PyStr.filter q s) = true.
Proof.
  induction s as [|c s IH]; simpl; [reflexivity|].
  intros H. apply andb_prop in H as [H1 H2].
  destruct (q c) eqn:Hq; simpl; [rewrite H1, Hq, (IH H2); reflexivity|exact (IH H2)].
Qed.

Lemma all_lstrip p s : PyStr.all p s = true -> PyStr.all p (PyStr.lstrip s) = true.
Proof.
  induction s as [|c s IH]; simpl; [reflexivity|].
  intros H. destruct (Chars.is_space c); [apply andb_prop in H; apply IH, H|exact H].
Qed.

Lemma all_rstrip p s : PyStr.all p s = true -> PyStr.all p (PyStr.rstrip s) = true.
Proof.
  induction s as [|c s IH]; simpl; [reflexivity|].
  intros H. apply andb_prop in H as [H1 H2].
  destruct (_ && _); simpl; [reflexivity|]. rewrite H1, (IH H2). reflexivity.
Qed.

Lemma all_strip p s : PyStr.all p s = true -> PyStr.all p (PyStr.strip s) = true.
Proof. intros H. apply all_rstrip, all_lstrip, H. Qed.

Lemma collapse_ws_spaces b s :
  PyStr.all (fun c => negb (Chars.is_space c) || Ascii.eqb c " ") (PyStr.collapse_ws b s) = true.
Proof.
  revert b. induction s as [|c s IH]; intros b; simpl; [reflexivity|].
  destruct (Chars.is_space c) eqn:Hc.
  - destruct b; [apply IH|simpl; apply IH].
  - simpl. rewrite Hc. apply IH.
Qed.

(** The characters [normalize_song_title] can return: word characters, the
    plain space and the kept punctuation. *)
Definition title_char (c : ascii) : bool :=
  Chars.is_word c || Ascii.eqb c " " || Chars.is_kept_punct c.

Lemma substring_prefix n s :
  (String.length (substring 0 n s) <= n)%nat /\ String.prefix (substring 0 n s) s = true.
Proof.
  revert s. induction n as [|n IH]; intros s; destruct s as [|c s]; simpl;
    try (split; [lia|reflexivity]).
  destruct (IH s) as [H1 H2]. split; [lia|].
  destruct (ascii_dec c c); [exact H2|congruence].
Qed.

Lemma find_app_skip {A} (f : A -> bool) (l post : list A) (x : A) :
  f x = false -> find f (l ++ x :: post) = find f (l ++ post).
Proof.
  intros Hx. induction l as [|y l IH]; simpl; [rewrite Hx; reflexivity|].
  destruct (f y); [reflexivity|exact IH].
Qed.

(* ------------------------------------------------------------------ *)
(** ** [normalize_song_title]: what it returns *)

(** [normalize_song_title] returns only word characters, plain spaces and
    the kept punctuation (no symbol, no tab, newline or other whitespace),
    and its result has no leading or trailing whitespace. *)
Theorem normalize_song_title_output (t : string) :
  PyStr.all title_char (normalize_song_title t) = true /\
  PyStr.strip (normalize_song_title t) = normalize_song_title t.
Proof.
  unfold normalize_song_title. destruct (String.eqb t EmptyString); [split; reflexivity|].
  split; [|apply strip_idem].
  apply all_strip.
  refine (all_impl _ _ _ _ (all_filter _ _ _ (collapse_ws_spaces false _))).
  intros c H. unfold title_char.
  destruct (Chars.is_word c), (Chars.is_space c), (Chars.is_kept_punct c), (Ascii.eqb c " ");
    simpl in *; congruence.
Qed.

(* ------------------------------------------------------------------ *)
(** ** Keys and texts of comments *)

(** The comment key [song_title.lower().strip()] is stable: the key of a
    key is the key itself.  A stored comment text [text.strip()[:200]] has
    at most 200 characters and is a prefix of the stripped text. *)
Theorem comment_normalization (song_title text : string) :
  song_key (song_key song_title) = song_key song_title /\
  (String.length (comment_text text) <= 200)%nat /\
  String.prefix (comment_text text) (PyStr.strip text) = true.
Proof.
  unfold song_key, comment_text. split; [|apply substring_prefix].
  rewrite lower_strip, lower_idem, strip_idem. reflexivity.
Qed.

(* ------------------------------------------------------------------ *)
(** ** [get_song_history]: case-insensitive lookup *)

(** [get_song_history sgs t] is the first record whose lower-cased title
    equals the lower-cased query, [None] exactly when there is none; a query
    and its lower-cased form give the same answer. *)
Theorem get_song_history_spec (sgs : list song) (t : string) (s : song) :
  (ChartDataProcessor.get_song_history sgs t = Some s <->
   first_such (fun s' => PyStr.lower (title s') = PyStr.lower t) sgs s) /\
  (ChartDataProcessor.get_song_history sgs t = None <->
   Forall (fun s' => PyStr.lower (title s') <> PyStr.lower t) sgs) /\
  ChartDataProcessor.get_song_history sgs (PyStr.lower t)
  = ChartDataProcessor.get_song_history sgs t.
Proof.
  unfold ChartDataProcessor.get_song_history. split; [|split].
  - apply find_first_such. intros x. apply String.eqb_eq.
  - apply find_none_forall. intros x. apply String.eqb_eq.
  - rewrite lower_idem. reflexivity.
Qed.

(** A record preceded by a record whose title is equal to its own ignoring
    case is never returned: removing it changes the answer to no query. *)
Theorem get_song_history_shadowed (pre post : list song) (s0 s : song) (t : string) :
  In s0 pre -> PyStr.lower (title s0) = PyStr.lower (title s) ->
  ChartDataProcessor.get_song_history (pre ++ s :: post) t
  = ChartDataProcessor.get_song_history (pre ++ post) t.
Proof.
  unfold ChartDataProcessor.get_song_history. intros Hin Heq.
  induction pre as [|x pre IH]; [destruct Hin|]. simpl.
  destruct (String.eqb (PyStr.lower (title x)) (PyStr.lower t)) eqn:Hx; [reflexivity|].
  destruct Hin as [->|Hin]; [|apply IH, Hin].
  apply find_app_skip. rewrite <- Heq. exact Hx.
Qed.

Lemma get_song_history_shadowed_witness :
  In (mk_song "Hello" [(1, Some 1)] 1) [mk_song "Hello" [(1, Some 1)] 1] /\
  PyStr.lower (title (mk_song "Hello" [(1, Some 1)] 1))
  = PyStr.lower (title (mk_song "hello" [(1, Some 2)] 1)) /\
  ChartDataProcessor.get_song_history
    ([mk_song "Hello" [(1, Some 1)] 1] ++ mk_song "hello" [(1, Some 2)] 1 :: []) "hello"
  = ChartDataProcessor.get_song_history ([mk_song "Hello" [(1, Some 1)] 1] ++ []) "hello".
Proof.
  split; [left; reflexivity|split; [reflexivity|]].
  apply (get_song_history_shadowed [mk_song "Hello" [(1, Some 1)] 1] []
           (mk_song "Hello" [(1, Some 1)] 1) (mk_song "hello" [(1, Some 2)] 1) "hello");
    [left; reflexivity|reflexivity].
Defined.

(* ------------------------------------------------------------------ *)
(** ** Song statistics *)

Lemma fold_left_sum {B} (f : Z -> B -> Z) (g : B -> Z) :
  (forall a v, f a v = a + g v) ->
  forall l a, fold_left f l a = a + fold_right (fun v acc => g v + acc) 0 l.
Proof.
  intros Hf l. induction l as [|v l IH]; intros a; simpl; [lia|].
  rewrite IH, Hf. lia.
Qed.

(** The points of one value and whether it is a [1]. *)
Definition points_of (v : option Z) : Z :=
  match v with Some p => if Z.leb p 100 then 101 - p else 0 | None => 0 end.
Definition one_of (v : option Z) : Z :=
  match v with Some p => if Z.eqb p 1 then 1 else 0 | None => 0 end.

Definition present_of (l : list (option Z)) : list Z :=
  flat_map (fun position => match position with Some p => [p] | None => [] end) l.

Lemma calculate_total_points_sum s :
  calculate_total_points s = fold_right (fun v acc => points_of v + acc) 0 (position_values s).
Proof.
  unfold calculate_total_points. rewrite (fold_left_sum _ points_of); [lia|].
  intros a [p|]; simpl; [destruct (Z.leb p 100)|]; lia.
Qed.

Lemma count_number_ones_sum s :
  count_number_ones s = fold_right (fun v acc => one_of v + acc) 0 (position_values s).
Proof.
  unfold count_number_ones. rewrite (fold_left_sum _ one_of); [lia|].
  intros a [p|]; simpl; [destruct (Z.eqb p 1)|]; lia.
Qed.

Lemma py_sum_sum l : py_sum l = fold_right (fun v acc => v + acc) 0 l.
Proof. unfold py_sum. rewrite (fold_left_sum Z.add (fun v => v)); [lia|reflexivity]. Qed.

Lemma points_ones_bound l :
  0 <= 100 * fold_right (fun v acc => one_of v + acc) 0 l
  <= fold_right (fun v acc => points_of v + acc) 0 l /\
  fold_right (fun v acc => one_of v + acc) 0 l <= Z.of_nat (List.length (present_of l)).
Proof.
  unfold present_of.
  induction l as [|[p|] l IH];
    cbn [fold_right flat_map app one_of points_of List.length]; [lia| |lia].
  rewrite Nat2Z.inj_succ.
  destruct (Z.eqb p 1) eqn:H1;
    [apply Z.eqb_eq in H1; subst; rewrite (proj2 (Z.leb_le 1 100)) by lia; lia|].
  destruct (Z.leb p 100) eqn:H2; [apply Z.leb_le in H2|]; lia.
Qed.

Lemma points_zero l :
  fold_right (fun v acc => points_of v + acc) 0 l = 0 <-> Forall (fun p => 100 < p) (present_of l).
Proof.
  assert (Hpos : forall l, 0 <= fold_right (fun v acc => points_of v + acc) 0 l).
  { induction l0 as [|[p|] l0 IH]; cbn [fold_right points_of]; [lia| |lia].
    destruct (Z.leb p 100) eqn:H; [apply Z.leb_le in H|]; lia. }
  unfold present_of in *.
  induction l as [|[p|] l IH]; cbn [fold_right flat_map app points_of]; [split; auto| |exact IH].
  specialize (Hpos l). destruct (Z.leb p 100) eqn:H.
  - apply Z.leb_le in H. split; [lia|intros Hf; inversion Hf; lia].
  - apply Z.leb_gt in H. rewrite Z.add_0_l, IH. split.
    + intros Hf. constructor; assumption.
    + intros Hf. inversion Hf. assumption.
Qed.

Lemma present_positions_of s : present_positions s = present_of (position_values s).
Proof. reflexivity. Qed.

Lemma present_positions_non_absent s :
  present_positions s = non_absent_values (positions s).
Proof.
  unfold present_positions, position_values, non_absent_values.
  induction (positions s) as [|[k v] pos IH]; simpl; [reflexivity|].
  rewrite IH. reflexivity.
Qed.

Lemma fold_min_spec l : forall x,
  In (fold_left Z.min l x) (x :: l) /\ Forall (fun p => fold_left Z.min l x <= p) (x :: l).
Proof.
  induction l as [|y l IH]; intros x; simpl.
  - split; [left; reflexivity|constructor; [lia|constructor]].
  - destruct (IH (Z.min x y)) as [Hin Hall]. inversion Hall as [|a b Hm Hl]; subst.
    split.
    + destruct Hin as [Heq|Hin]; [|right; right; exact Hin].
      rewrite <- Heq. destruct (Z.min_spec x y) as [[_ E]|[_ E]]; rewrite E;
        [left|right; left]; reflexivity.
    + constructor; [lia|constructor; [lia|exact Hl]].
Qed.

Lemma fold_max_spec l : forall x,
  In (fold_left Z.max l x) (x :: l) /\ Forall (fun p => p <= fold_left Z.max l x) (x :: l).
Proof.
  induction l as [|y l IH]; intros x; simpl.
  - split; [left; reflexivity|constructor; [lia|constructor]].
  - destruct (IH (Z.max x y)) as [Hin Hall]. inversion Hall as [|a b Hm Hl]; subst.
    split.
    + destruct Hin as [Heq|Hin]; [|right; right; exact Hin].
      rewrite <- Heq. destruct (Z.max_spec x y) as [[_ E]|[_ E]]; rewrite E;
        [right; left|left]; reflexivity.
    + constructor; [lia|constructor; [lia|exact Hl]].
Qed.

Lemma sum_lower_bound m l :
  Forall (fun p => m <= p) l -> m * Z.of_nat (List.length l) <= fold_right (fun v acc => v + acc) 0 l.
Proof.
  induction 1 as [|p l Hp Hl IH]; cbn [fold_right List.length]; [lia|].
  rewrite Nat2Z.inj_succ, Z.mul_succ_r. lia.
Qed.

Lemma sum_upper_bound m l :
  Forall (fun p => p <= m) l -> fold_right (fun v acc => v + acc) 0 l <= m * Z.of_nat (List.length l).
Proof.
  induction 1 as [|p l Hp Hl IH]; cbn [fold_right List.length]; [lia|].
  rewrite Nat2Z.inj_succ, Z.mul_succ_r. lia.
Qed.

Lemma pos_of_nat_Z n : n <> O -> Z.pos (Pos.of_nat n) = Z.of_nat n.
Proof. intros H. rewrite <- positive_nat_Z, Nat2Pos.id by exact H. reflexivity. Qed.

(** Every value of [positions] below 101 earns [101 - position] points, so
    the total points are at least 100 per first place (and never negative),
    and they are 0 exactly when every non-absent position is above 100. *)
Theorem calculate_total_points_bounds (s : song) :
  0 <= 100 * count_number_ones s <= calculate_total_points s /\
  (calculate_total_points s = 0 <-> Forall (fun p => 100 < p) (present_positions s)).
Proof.
  rewrite calculate_total_points_sum, count_number_ones_sum, present_positions_of.
  split; [apply points_ones_bound|apply points_zero].
Qed.

(** For a record satisfying the ingestion invariant, the number of first
    places is at most the number of editions the song charted in. *)
Theorem count_number_ones_le_total (s : song) :
  song_invariant s -> 0 <= count_number_ones s <= total_charts s.
Proof.
  intros [Ht _]. rewrite Ht, <- present_positions_non_absent, present_positions_of,
    count_number_ones_sum.
  pose proof (points_ones_bound (position_values s)). lia.
Qed.

Lemma count_number_ones_le_total_witness :
  song_invariant (mk_song "A" [(1, Some 1); (2, None); (3, Some 1)] 2) /\
  0 <= count_number_ones (mk_song "A" [(1, Some 1); (2, None); (3, Some 1)] 2)
    <= total_charts (mk_song "A" [(1, Some 1); (2, None); (3, Some 1)] 2).
Proof.
  assert (H : song_invariant (mk_song "A" [(1, Some 1); (2, None); (3, Some 1)] 2))
    by (unfold song_invariant; simpl; lia).
  split; [exact H|apply count_number_ones_le_total, H].
Defined.

(** [get_top_spot] is [None] exactly when no position is present, and
    otherwise the least present position; it is never [None] for a record
    satisfying the ingestion invariant. *)
Theorem get_top_spot_spec (s : song) :
  (get_top_spot s = None <-> present_positions s = []) /\
  (forall m, get_top_spot s = Some m ->
     In m (present_positions s) /\ Forall (fun p => m <= p) (present_positions s)) /\
  (song_invariant s -> get_top_spot s <> None).
Proof.
  unfold get_top_spot. split; [|split].
  - destruct (present_positions s); split; congruence.
  - intros m. destruct (present_positions s) as [|p ps]; [discriminate|].
    intros [= <-]. apply fold_min_spec.
  - intros [Ht Hp]. rewrite <- present_positions_non_absent in Ht.
    destruct (present_positions s); [simpl in Ht; lia|discriminate].
Qed.

(** [calculate_song_stats]: [total_charts] is the number of present
    positions (the record's [total_charts] under the ingestion invariant);
    with no position the stats are all zero; otherwise the best position is
    the top spot, the worst one is a present position, every position lies
    between them, and the exact average lies between them as well. *)
Theorem calculate_song_stats_spec (s : song) :
  let st := calculate_song_stats s in
  stat_total_charts st = Z.of_nat (List.length (present_positions s)) /\
  (song_invariant s -> stat_total_charts st = total_charts s) /\
  (present_positions s = [] -> st = mk_stats 0 (QArith_base.Qmake 0 1) 0 0) /\
  (present_positions s <> [] ->
     get_top_spot s = Some (stat_best_position st) /\
     In (stat_worst_position st) (present_positions s) /\
     Forall (fun p => stat_best_position st <= p <= stat_worst_position st) (present_positions s) /\
     QArith_base.Qle (QArith_base.inject_Z (stat_best_position st)) (stat_avg_position st) /\
     QArith_base.Qle (stat_avg_position st) (QArith_base.inject_Z (stat_worst_position st))).
Proof.
  cbv zeta. unfold calculate_song_stats, get_top_spot.
  assert (Hinv : song_invariant s ->
                 Z.of_nat (List.length (present_positions s)) = total_charts s).
  { intros [Ht _]. rewrite Ht, present_positions_non_absent. reflexivity. }
  destruct (present_positions s) as [|p ps] eqn:E.
  - split; [reflexivity|split; [intros H; rewrite <- (Hinv H); reflexivity|]].
    split; [reflexivity|congruence].
  - simpl stat_total_charts. split; [reflexivity|split; [exact Hinv|]].
    split; [discriminate|intros _].
    cbn [stat_best_position stat_worst_position stat_avg_position].
    destruct (fold_min_spec ps p) as [_ Hmin]. destruct (fold_max_spec ps p) as [Hmx Hmax].
    fold (py_min p ps) in Hmin. fold (py_max p ps) in Hmx, Hmax.
    assert (Hall : Forall (fun q => py_min p ps <= q <= py_max p ps) (p :: ps)).
    { rewrite Forall_forall in *. intros q Hq. split; [apply Hmin|apply Hmax]; exact Hq. }
    split; [reflexivity|split; [exact Hmx|split; [exact Hall|]]].
    unfold QArith_base.Qle, QArith_base.inject_Z; cbn [QArith_base.Qnum QArith_base.Qden].
    rewrite pos_of_nat_Z by discriminate. rewrite py_sum_sum.
    pose proof (sum_lower_bound _ _ Hmin). pose proof (sum_upper_bound _ _ Hmax).
    simpl List.length in *. lia.
Qed.

(* ------------------------------------------------------------------ *)
(** ** The chart views *)

Lemma Sorted_map_rel {A B} (R : B -> B -> Prop) (f : A -> B) (l : list A) :
  Sorted (fun a b => R (f a) (f b)) l -> Sorted R (List.map f l).
Proof.
  induction 1 as [|a l Hs IH Hd]; simpl; constructor; [exact IH|].
  destruct Hd; simpl; constructor; assumption.
Qed.

(** A song has a non-absent position in edition [n]. *)
Definition has_position (n : Z) (s : song) : bool :=
  match dict_get n (positions s) with Some _ => true | None => false end.

Lemma chart_entries_titles sgs n :
  List.map e_title
    (flat_map (fun s => match entry_of n s with Some e => [e] | None => [] end) sgs)
  = List.map title (List.filter (has_position n) sgs).
Proof.
  induction sgs as [|s sgs IH]; simpl; [reflexivity|].
  rewrite map_app, IH. unfold entry_of, has_position.
  destruct (dict_get n (positions s)); reflexivity.
Qed.

(** [get_chart_data sgs n] is in ascending order of position and has one
    entry per record with a non-absent position in edition [n]: its titles
    are those records' titles. *)
Theorem get_chart_data_sorted (sgs : list song) (n : Z) :
  Sorted (le_by e_position) (get_chart_data sgs n) /\
  Permutation (List.map e_title (get_chart_data sgs n))
    (List.map title (List.filter (has_position n) sgs)).
Proof.
  split; [apply sort_by_sorted|].
  unfold get_chart_data. etransitivity; [apply Permutation_map, sort_by_perm|].
  apply Permutation_refl', chart_entries_titles.
Qed.

Lemma renumber_positions l : forall i,
  List.map row_position (renumber (Z.of_nat i) l) = List.map Z.of_nat (seq i (List.length l)).
Proof.
  induction l as [|r l IH]; intros i; simpl; [reflexivity|].
  replace (Z.of_nat i + 1) with (Z.of_nat (S i)) by lia. rewrite IH. reflexivity.
Qed.

Lemma renumber_map {B} (f : chart_row -> B) l :
  (forall r i, f (set_row_position r i) = f r) ->
  forall i, List.map f (renumber i l) = List.map f l.
Proof.
  intros Hf. induction l as [|r l IH]; intros i; simpl; [reflexivity|].
  rewrite Hf, IH. reflexivity.
Qed.

Lemma renumber_forall (P : chart_row -> Prop) l :
  (forall r i, P r -> P (set_row_position r i)) ->
  Forall P l -> forall i, Forall P (renumber i l).
Proof.
  intros HP. induction 1 as [|r l Hr Hl IH]; intros i; simpl; constructor; auto.
Qed.

(** The "All Songs" view (chart 0): the rows are ranked 1, 2, ... in order,
    whatever the latest positions are; they are in non-increasing order of
    total points; they are the records of the dataset with their titles and
    total points; every row shows [--] as previous position and movement
    [same] with value 0. *)
Theorem all_songs_view_spec (p : processor) :
  List.map row_position (all_songs_view p) = List.map Z.of_nat (seq 1 (List.length (songs p))) /\
  Sorted Z.ge (List.map row_total_points (all_songs_view p)) /\
  Permutation (List.map (fun r => (row_title r, row_total_points r)) (all_songs_view p))
    (List.map (fun s => (title s, calculate_total_points s)) (songs p)) /\
  Forall (fun r => row_prev r = None /\ row_movement r = Same /\ row_movement_value r = 0)
    (all_songs_view p).
Proof.
  unfold all_songs_view.
  set (rows0 := List.map (all_songs_row (num_charts p)) (songs p)).
  set (sorted := sort_by (fun r => - row_total_points r) rows0).
  split; [|split; [|split]].
  - change 1 with (Z.of_nat 1). rewrite renumber_positions.
    unfold sorted. rewrite (Permutation_length (sort_by_perm _ rows0)).
    unfold rows0. rewrite length_map. reflexivity.
  - rewrite renumber_map by reflexivity.
    apply Sorted_map_rel.
    generalize (sort_by_sorted (fun r => - row_total_points r) rows0). fold sorted.
    intros H. induction H as [|a l Hs IH Hd]; constructor; [exact IH|].
    destruct Hd; constructor. unfold le_by in *. lia.
  - rewrite renumber_map by reflexivity.
    transitivity (List.map (fun r => (row_title r, row_total_points r)) rows0);
      [apply Permutation_map, sort_by_perm|].
    unfold rows0. rewrite map_map. reflexivity.
  - apply renumber_forall; [intros r i H; exact H|].
    apply Forall_forall. intros r Hr. unfold sorted in Hr. apply sort_by_in in Hr.
    unfold rows0 in Hr. apply in_map_iff in Hr. destruct Hr as (s & <- & _).
    repeat split.
Qed.

(** The number of labels [m] in the counts. *)
Definition count_of (mc : movement_counts) (m : movement) : Z :=
  match m with
  | New => count_new mc
  | Riser => count_riser mc
  | Faller => count_faller mc
  | Same => count_same mc
  | Reentry => count_reentry mc
  end.

Definition movement_eqb (a b : movement) : bool :=
  match a, b with
  | New, New | Riser, Riser | Faller, Faller | Same, Same | Reentry, Reentry => true
  | _, _ => false
  end.

Lemma regular_chart_fold sgs n items : forall d c,
  fold_left (fun acc item =>
               let '(formatted_data, mc) := acc in
               ((formatted_data ++ [chart_row_of sgs n item])%list,
                bump (movement_type sgs n item) mc))
    items (d, c)
  = (d ++ List.map (chart_row_of sgs n) items,
     fold_left (fun mc item => bump (movement_type sgs n item) mc) items c).
Proof.
  induction items as [|it items IH]; intros d c; simpl; [rewrite app_nil_r; reflexivity|].
  rewrite IH, <- app_assoc. reflexivity.
Qed.

Lemma chart_row_of_fields sgs n item :
  row_position (chart_row_of sgs n item) = e_position item /\
  row_movement (chart_row_of sgs n item) = movement_type sgs n item /\
  row_prev (chart_row_of sgs n item) = prev_display (e_prev item) /\
  row_movement_value (chart_row_of sgs n item) = movement_value item.
Proof.
  unfold chart_row_of. destruct (title_stats sgs (e_title item)) as [[tp ones] top].
  repeat split.
Qed.

Lemma bump_count m c m' :
  count_of (bump m c) m' = count_of c m' + (if movement_eqb m m' then 1 else 0).
Proof. destruct m, m'; simpl; lia. Qed.

Lemma counts_fold sgs n items : forall c m,
  count_of (fold_left (fun mc item => bump (movement_type sgs n item) mc) items c) m
  = count_of c m + Z.of_nat (List.length
      (List.filter (fun r => movement_eqb (row_movement r) m)
         (List.map (chart_row_of sgs n) items))).
Proof.
  induction items as [|it items IH]; intros c m; simpl; [lia|].
  rewrite IH, bump_count. destruct (chart_row_of_fields sgs n it) as (_ & -> & _).
  destruct (movement_eqb (movement_type sgs n it) m); simpl List.length; lia.
Qed.

Lemma filter_movements_length (l : list chart_row) :
  Z.of_nat (List.length (List.filter (fun r => movement_eqb (row_movement r) New) l))
  + Z.of_nat (List.length (List.filter (fun r => movement_eqb (row_movement r) Riser) l))
  + Z.of_nat (List.length (List.filter (fun r => movement_eqb (row_movement r) Faller) l))
  + Z.of_nat (List.length (List.filter (fun r => movement_eqb (row_movement r) Same) l))
  + Z.of_nat (List.length (List.filter (fun r => movement_eqb (row_movement r) Reentry) l))
  = Z.of_nat (List.length l).
Proof.
  induction l as [|r l IH]; simpl; [reflexivity|].
  destruct (row_movement r); simpl List.length; lia.
Qed.

(** A regular chart [n]: the rows are those of [get_chart_data] in order of
    ascending position, each count of [movement_counts] is the number of
    rows with that label, and the five counts add up to the number of
    rows. *)
Theorem regular_chart_counts (sgs : list song) (n : Z) :
  fst (regular_chart sgs n) = List.map (chart_row_of sgs n) (get_chart_data sgs n) /\
  Sorted Z.le (List.map row_position (fst (regular_chart sgs n))) /\
  (forall m, count_of (snd (regular_chart sgs n)) m =
             Z.of_nat (List.length (List.filter (fun r => movement_eqb (row_movement r) m)
                                      (fst (regular_chart sgs n))))) /\
  count_new (snd (regular_chart sgs n)) + count_riser (snd (regular_chart sgs n))
  + count_faller (snd (regular_chart sgs n)) + count_same (snd (regular_chart sgs n))
  + count_reentry (snd (regular_chart sgs n))
  = Z.of_nat (List.length (fst (regular_chart sgs n))).
Proof.
  unfold regular_chart. rewrite regular_chart_fold. simpl fst; simpl snd.
  assert (Hc : forall m,
    count_of (fold_left (fun mc item => bump (movement_type sgs n item) mc)
                (get_chart_data sgs n) zero_counts) m =
    Z.of_nat (List.length (List.filter (fun r => movement_eqb (row_movement r) m)
                             (List.map (chart_row_of sgs n) (get_chart_data sgs n))))).
  { intros m. rewrite counts_fold. destruct m; reflexivity. }
  split; [reflexivity|split; [|split; [exact Hc|]]].
  - rewrite map_map.
    assert (E : List.map (fun x => row_position (chart_row_of sgs n x)) (get_chart_data sgs n)
                = List.map e_position (get_chart_data sgs n)).
    { apply map_ext. intros x. apply chart_row_of_fields. }
    rewrite E. apply Sorted_map_rel, sort_by_sorted.
  - rewrite <- filter_movements_length.
    rewrite <- (Hc New), <- (Hc Riser), <- (Hc Faller), <- (Hc Same), <- (Hc Reentry).
    reflexivity.
Qed.

Lemma filter_all_new (l : list chart_row) :
  Forall (fun r => row_movement r = New /\ row_prev r = None /\ row_movement_value r = 0) l ->
  List.filter (fun r => movement_eqb (row_movement r) New) l = l /\
  (forall m, m <> New -> List.filter (fun r => movement_eqb (row_movement r) m) l = []).
Proof.
  induction 1 as [|r l [Hr _] Hl [IH1 IH2]]; [split; reflexivity|].
  simpl. rewrite Hr, IH1. split; [reflexivity|].
  intros m Hm. rewrite IH2 by exact Hm. destruct m; [congruence|reflexivity..].
Qed.

(** Chart 1: every row is labelled [new], with movement value 0 and [--]
    as previous position, and all of them are counted as new. *)
Theorem regular_chart_first_edition (sgs : list song) :
  Forall (fun r => row_movement r = New /\ row_prev r = None /\ row_movement_value r = 0)
    (fst (regular_chart sgs 1)) /\
  snd (regular_chart sgs 1) = mk_counts (Z.of_nat (List.length (fst (regular_chart sgs 1)))) 0 0 0 0.
Proof.
  assert (Hprev : forall e, In e (get_chart_data sgs 1) -> e_prev e = None).
  { intros e He. unfold get_chart_data in He. apply sort_by_in, in_flat_map in He.
    destruct He as (s & _ & He). unfold entry_of in He.
    destruct (dict_get 1 (positions s)); [|destruct He].
    destruct He as [<-|[]]. reflexivity. }
  assert (Hrows : Forall (fun r => row_movement r = New /\ row_prev r = None /\
                                   row_movement_value r = 0) (fst (regular_chart sgs 1))).
  { unfold regular_chart. rewrite regular_chart_fold. simpl fst.
    apply Forall_forall. intros r Hr. apply in_map_iff in Hr. destruct Hr as (e & <- & He).
    destruct (chart_row_of_fields sgs 1 e) as (_ & -> & -> & ->).
    unfold movement_type, movement_value. rewrite (Hprev e He). repeat split. }
  split; [exact Hrows|].
  destruct (filter_all_new _ Hrows) as [Hn Hf].
  destruct (regular_chart_counts sgs 1) as (_ & _ & Hc & _).
  destruct (snd (regular_chart sgs 1)) as [a b c d e] eqn:E.
  pose proof (Hc New) as H1. pose proof (Hc Riser) as H2. pose proof (Hc Faller) as H3.
  pose proof (Hc Same) as H4. pose proof (Hc Reentry) as H5.
  simpl in H1, H2, H3, H4, H5.
  rewrite Hn in H1. rewrite Hf in H2, H3, H4, H5 by discriminate.
  simpl in H2, H3, H4, H5. subst. reflexivity.
Qed.

(* ------------------------------------------------------------------ *)
(** ** The song endpoints *)

Lemma py_range_in a b k : In k (py_range a b) <-> a <= k < b.
Proof.
  unfold py_range. rewrite in_map_iff. split.
  - intros (i & <- & Hi). apply in_seq in Hi. lia.
  - intros Hk. exists (Z.to_nat (k - a)). split; [lia|]. apply in_seq. lia.
Qed.

Lemma py_range_sorted a b : StronglySorted Z.lt (py_range a b).
Proof.
  unfold py_range. generalize O as i. generalize (Z.to_nat (b - a)) as len.
  induction len as [|len IH]; intros i; simpl; constructor; [apply IH|].
  apply Forall_forall. intros k Hk. apply in_map_iff in Hk. destruct Hk as (j & <- & Hj).
  apply in_seq in Hj. lia.
Qed.

Lemma history_chart_data_in pos n c q :
  In (c, q) (history_chart_data pos n) <-> 1 <= c <= n /\ dict_get c pos = Some q.
Proof.
  unfold history_chart_data. rewrite in_flat_map. split.
  - intros (k & Hk & Hin). apply py_range_in in Hk.
    destruct (dict_get k pos) eqn:E; [|destruct Hin].
    destruct Hin as [[= -> ->]|[]]. split; [lia|exact E].
  - intros (Hc & Hq). exists c. split; [apply py_range_in; lia|]. rewrite Hq. left. reflexivity.
Qed.

Lemma history_chart_data_sorted pos n :
  StronglySorted (fun a b => fst a < fst b) (history_chart_data pos n).
Proof.
  unfold history_chart_data. induction (py_range_sorted 1 (n + 1)) as [|k ks Hs IH Hf];
    simpl; [constructor|].
  assert (Hgt : Forall (fun b => k < fst b)
                  (flat_map (fun chart_num => match dict_get chart_num pos with
                                              | Some position => [(chart_num, position)]
                                              | None => [] end) ks)).
  { apply Forall_forall. intros [c q] Hin. apply in_flat_map in Hin.
    destruct Hin as (k' & Hk' & Hin). destruct (dict_get k' pos); [|destruct Hin].
    destruct Hin as [[= -> ->]|[]]. rewrite Forall_forall in Hf. apply Hf, Hk'. }
  destruct (dict_get k pos); simpl; [constructor; assumption|exact IH].
Qed.

(** [get_song] answers 404 exactly for a title [get_song_history] does not
    find; otherwise its [chart_data] lists, in strictly ascending edition
    order, the pairs (edition, position) of the found record with
    [1 <= edition <= num_charts] and a non-absent position, its stats are
    [calculate_song_stats] of that record, and the [/api/song-history]
    route returns the same title and [chart_data]. *)
Theorem get_song_chart_data (p : processor) (t : string) :
  match App.get_song true p t with
  | App.SongError code _ =>
      code = 404 /\ ChartDataProcessor.get_song_history (songs p) t = None /\
      exists msg, App.get_song_history true p t = App.HistoryError 404 msg
  | App.SongBody ti data stats =>
      exists h, ChartDataProcessor.get_song_history (songs p) t = Some h /\
        ti = title h /\ stats = calculate_song_stats h /\
        (forall c q, In (c, q) data <-> 1 <= c <= num_charts p /\ dict_get c (positions h) = Some q) /\
        StronglySorted (fun a b => fst a < fst b) data /\
        App.get_song_history true p t = App.HistoryBody ti data (total_charts h)
  end.
Proof.
  unfold App.get_song, App.get_song_history. simpl negb. cbv iota.
  destruct (ChartDataProcessor.get_song_history (songs p) t) as [h|].
  - exists h. split; [reflexivity|split; [reflexivity|split; [reflexivity|]]].
    split; [intros c q; apply history_chart_data_in|].
    split; [apply history_chart_data_sorted|reflexivity].
  - repeat split. eexists. reflexivity.
Qed.

(* ------------------------------------------------------------------ *)
(** ** Ingestion outcomes *)

(** A table whose only edition column is numbered 5. *)
Definition edition_five : table :=
  mk_table [HStr "Song"; HStr "5"] [[CStr "A"; CInt 2]].

(** After a successful ingestion, [num_charts] is the number of chart
    columns, not the greatest edition number: an edition numbered above
    that count is refused by the chart endpoint (400) and never appears in
    the [chart_data] of the song endpoint. *)
Theorem process_chart_data_unreachable_editions (st : processor) (df : table) :
  run_ok (process_chart_data st (Some df)) = true ->
  exists cols,
    find_chart_columns (columns df) = Ok cols /\
    num_charts (run_state (process_chart_data st (Some df))) = Z.of_nat (List.length cols) /\
    forall k, Z.of_nat (List.length cols) < k ->
      App.get_chart true (run_state (process_chart_data st (Some df))) k
      = App.ChartError 400 "Invalid chart number" /\
      forall t ti data stats,
        App.get_song true (run_state (process_chart_data st (Some df))) t
        = App.SongBody ti data stats -> forall q, ~ In (k, q) data.
Proof.
  intros Hok.
  destruct (process_chart_data_success _ _ Hok)
    as (df' & sc & cols & p & sk & ws & sgs & Hr & Hs & Hc & Hne & E & Hst).
  assert (df' = df) as ->.
  { unfold read_data_file in Hr. destruct (_ || _); congruence. }
  exists cols. rewrite Hst. split; [exact Hc|split; [reflexivity|]].
  intros k Hk. split.
  - unfold App.get_chart. simpl num_charts. simpl negb. cbv iota.
    replace (Z.ltb k 0 || Z.ltb (Z.of_nat (List.length cols)) k) with true
      by (symmetry; apply orb_true_iff; right; apply Z.ltb_lt; exact Hk).
    reflexivity.
  - intros t ti data stats Hget q Hin.
    pose proof (get_song_chart_data (mk_processor (data_path st) sgs
                                        (Z.of_nat (List.length cols))) t) as Hspec.
    rewrite Hget in Hspec. destruct Hspec as (h & _ & _ & _ & Hdata & _).
    apply Hdata in Hin. simpl in Hin. lia.
Qed.

Lemma process_chart_data_unreachable_editions_witness :
  run_ok (process_chart_data (init_processor "Chart.csv") (Some edition_five)) = true /\
  exists cols,
    find_chart_columns (columns edition_five) = Ok cols /\
    num_charts (run_state (process_chart_data (init_processor "Chart.csv") (Some edition_five)))
    = Z.of_nat (List.length cols) /\
    forall k, Z.of_nat (List.length cols) < k ->
      App.get_chart true (run_state (process_chart_data (init_processor "Chart.csv")
                                       (Some edition_five))) k
      = App.ChartError 400 "Invalid chart number" /\
      forall t ti data stats,
        App.get_song true (run_state (process_chart_data (init_processor "Chart.csv")
                                        (Some edition_five))) t
        = App.SongBody ti data stats -> forall q, ~ In (k, q) data.
Proof.
  split; [reflexivity|].
  apply (process_chart_data_unreachable_editions (init_processor "Chart.csv") edition_five).
  reflexivity.
Defined.

Lemma process_rows_processed hs sc cols rws : forall acc p sk ws sgs p' sk' ws',
  process_rows hs sc cols rws acc p sk ws = (sgs, Ok (p', sk', ws')) ->
  exists added, sgs = acc ++ added /\ p' = p + Z.of_nat (List.length added).
Proof.
  induction rws as [|row rest IH]; intros acc p sk ws sgs p' sk' ws' H; simpl in H.
  - injection H as <- <- _ _. exists []. split; [rewrite app_nil_r; reflexivity|simpl; lia].
  - destruct (String.eqb _ EmptyString); [eapply IH; exact H|].
    destruct (fill_positions hs row _ cols [] ws) as [[pos w]|e]; [|discriminate].
    destruct (Z.ltb 0 (count_charted pos)); [|eapply IH; exact H].
    destruct (IH _ _ _ _ _ _ _ _ H) as (added & -> & ->).
    exists (mk_song (title_of_cell (row_get hs row sc)) pos (count_charted pos) :: added).
    split; [rewrite <- app_assoc; reflexivity|simpl List.length; lia].
Qed.

(** On success, the message reports as many songs as the run appended, and
    as many charts as [num_charts], which is at least 1; the file type is
    Excel exactly for the extensions [.xlsx] and [.xls], in any case. *)
Theorem process_chart_data_loaded_message (st : processor) (contents : option table) :
  run_ok (process_chart_data st contents) = true ->
  exists added,
    songs (run_state (process_chart_data st contents)) = songs st ++ added /\
    1 <= num_charts (run_state (process_chart_data st contents)) /\
    run_message (process_chart_data st contents)
    = MsgLoaded (Z.of_nat (List.length added)) (num_charts (run_state (process_chart_data st contents)))
        (is_excel_ext (PyStr.lower (splitext_ext (data_path st)))).
Proof.
  unfold run_ok, run_state, run_message, process_chart_data.
  destruct (read_data_file (data_path st) contents) as [df|e]; [|discriminate].
  destruct (find_song_column (columns df)) as [sc|]; [|discriminate].
  destruct (find_chart_columns (columns df)) as [[|c cs]|e]; try discriminate.
  simpl.
  destruct (process_rows _ _ _ _ (songs st) 0 0 []) as [sgs [[[p sk] ws]|e]] eqn:E;
    [|discriminate].
  intros _. destruct (process_rows_processed _ _ _ _ _ _ _ _ _ _ _ _ E) as (added & -> & ->).
  exists added. simpl. split; [reflexivity|].
  split; [pose proof (Pos2Z.is_pos (Pos.of_succ_nat (List.length cs))); lia|].
  reflexivity.
Qed.

Lemma process_chart_data_loaded_message_witness :
  run_ok (process_chart_data (init_processor "Chart.xlsx") (Some Samples.two_songs)) = true /\
  exists added,
    songs (run_state (process_chart_data (init_processor "Chart.xlsx") (Some Samples.two_songs)))
    = [] ++ added /\
    1 <= num_charts (run_state (process_chart_data (init_processor "Chart.xlsx")
                                  (Some Samples.two_songs))) /\
    run_message (process_chart_data (init_processor "Chart.xlsx") (Some Samples.two_songs))
    = MsgLoaded (Z.of_nat (List.length added))
        (num_charts (run_state (process_chart_data (init_processor "Chart.xlsx")
                                  (Some Samples.two_songs))))
        (is_excel_ext (PyStr.lower (splitext_ext "Chart.xlsx"))).
Proof.
  split; [reflexivity|].
  apply (process_chart_data_loaded_message (init_processor "Chart.xlsx") (Some Samples.two_songs)).
  reflexivity.
Defined.





(** A data path whose extension, lower-cased, is none of [.xlsx], [.xls]
    and [.csv] makes ingestion fail with the read error and leave the
    processor unchanged, whether or not the file exists.  A hidden file
    named [.csv] has no extension for [os.path.splitext]. *)
Theorem process_chart_data_unsupported_extension (st : processor) (contents : option table) :
  is_excel_ext (PyStr.lower (splitext_ext (data_path st))) = false ->
  PyStr.lower (splitext_ext (data_path st)) <> ".csv" ->
  process_chart_data st contents = (st, (false, MsgReadError), []).
Proof.
  intros Hx Hc. unfold process_chart_data, read_data_file.
  rewrite Hx. simpl orb.
  destruct (String.eqb (PyStr.lower (splitext_ext (data_path st))) ".csv") eqn:E.
  - apply String.eqb_eq in E. contradiction.
  - reflexivity.
Qed.

Lemma process_chart_data_unsupported_extension_witness :
  is_excel_ext (PyStr.lower (splitext_ext (data_path (init_processor "data/.csv")))) = false /\
  PyStr.lower (splitext_ext (data_path (init_processor "data/.csv"))) <> ".csv" /\
  process_chart_data (init_processor "data/.csv") (Some Samples.two_songs)
  = (init_processor "data/.csv", (false, MsgReadError), []).
Proof.
  split; [reflexivity|split; [discriminate|]].
  apply process_chart_data_unsupported_extension; [reflexivity|discriminate].
Defined.

(* ------------------------------------------------------------------ *)
(** ** The session routes *)

Lemma session_mem_get k s : session_mem k s = false -> session_get k s = None.
Proof.
  induction s as [|[k' v] s IH]; simpl; [reflexivity|].
  destruct (String.eqb k' k) eqn:E1; [discriminate|].
  intros H. destruct (String.eqb k k') eqn:E2.
  - apply String.eqb_eq in E2. subst. rewrite String.eqb_refl in E1. discriminate.
  - apply IH, H.
Qed.

(** [/api/auth/status] reports a login exactly when the session holds a
    non-empty user; [/auth/logout] always answers success, and after it the
    status reports no login, no user name and no profile picture. *)
Theorem auth_logout_status (s : session) :
  (fst (fst (App.auth_status s)) = true <->
   exists u, session_get "user" s = Some u /\ u <> EmptyString) /\
  snd (App.auth_logout s) = true /\
  App.auth_status (fst (App.auth_logout s)) = (false, None, None).
Proof.
  split; [|split].
  - unfold App.auth_status. destruct (session_get "user" s) as [u|]; simpl.
    + destruct (String.eqb u EmptyString) eqn:E; simpl.
      * apply String.eqb_eq in E. split; [discriminate|]. intros (u' & [= <-] & H). congruence.
      * apply String.eqb_neq in E. split; [intros _; exists u; auto|reflexivity].
    + split; [discriminate|]. intros (u & H & _). discriminate.
  - unfold App.auth_logout. destruct (session_mem "user" s); reflexivity.
  - unfold App.auth_logout. destruct (session_mem "user" s) eqn:E; [reflexivity|].
    simpl. unfold App.auth_status. rewrite (session_mem_get _ _ E). reflexivity.
Qed.
